(** * go-agent: the transaction record and the log-event subsystem

    A shallow embedding of [internal/txn] (type [txn] and its methods) and of
    [v3/newrelic/log_event.go], followed by the properties of both.

    Conventions of the embedding.
    - A method with a pointer receiver is a function from the pointee before
      the call to the pointee after it, paired with what the call returns.
    - Every public method of [txn] runs between [txn.Lock()] and the deferred
      [txn.Unlock()]; calls are therefore atomic steps, taken one at a time.
    - [time.Now()], [recover()] and [newPriority()] read the environment; the
      value read is an argument of the function that reads it.
    - Functions of the repository that the embedded files call but do not
      define are fields of a class of collaborators. *)

From Stdlib Require Import ZArith String Ascii List Bool Lia DecimalString.
Import ListNotations.

Local Open Scope string_scope.
Local Open Scope Z_scope.

(** ** Go values used by both files *)

Module Go.

(** [uint64] arithmetic wraps modulo 2^64. *)
Definition uint64 (z : Z) : Z := z mod 2 ^ 64.

(** Conversion to [int64] keeps the low 64 bits, read as two's complement. *)
Definition int64 (z : Z) : Z := (z + 2 ^ 63) mod 2 ^ 64 - 2 ^ 63.

(** [time.Time] as an instant in nanoseconds, [time.Duration] as an [int64]
    count of nanoseconds. *)
Definition Time := Z.
Definition Duration := Z.

Definition maxDuration : Duration := 2 ^ 63 - 1.
Definition minDuration : Duration := - 2 ^ 63.

(** [t.Sub(u)]: the difference, saturated to the range of [Duration]. *)
Definition Time_Sub (t u : Time) : Duration :=
  let d := t - u in
  if maxDuration <? d then maxDuration
  else if d <? minDuration then minDuration
  else d.

(** [len(s)] of a string: its number of bytes. *)
Definition len (s : string) : Z := Z.of_nat (String.length s).

(** [s == ""]. *)
Definition isEmpty (s : string) : bool :=
  match s with EmptyString => true | String _ _ => false end.

(** [strconv.Itoa]. *)
Definition Itoa (z : Z) : string := NilZero.string_of_int (Z.to_int z).

(** [http.Header]: keys are stored in canonical form, each with its values;
    [h.Get(key)] is the first value stored under [key], or [""]. *)
Definition http_Header := list (string * list string).

Fixpoint Header_Get (h : http_Header) (key : string) : string :=
  match h with
  | [] => ""
  | (k, vs) :: h' =>
      if String.eqb k key then
        match vs with [] => "" | v :: _ => v end
      else Header_Get h' key
  end.

End Go.

(** ** [internal/txn]: data *)

Module Txn.
Import Go.

(** The values of type [error] that cross the public surface: the four
    sentinels of the file, and any other error value (one handed to
    [NoticeError], or returned by the response writer or the attribute
    validator). *)
Inductive error : Type :=
| ErrAlreadyEnded
| ErrorsLocallyDisabled
| ErrorsRemotelyDisabled
| ErrNilError
| errorString (text : string).

(** A non-nil [interface{}] value (an attribute value, a recovered panic). *)
Inductive any : Type :=
| anyString (s : string)
| anyInt (z : Z)
| anyBool (b : bool)
| anyError (e : error).

Definition HighSecurityErrorMsg : string :=
  "message removed by high security setting".

(** [txnError]: the fields the file reads and writes. *)
Record txnError : Type := mkTxnError {
  klass : string;
  msg : string;
  when : Time;
  stack : string
}.

Definition txnError_set_msg (m : string) (e : txnError) : txnError :=
  mkTxnError (klass e) m (when e) (stack e).

Definition txnError_set_when (t : Time) (e : txnError) : txnError :=
  mkTxnError (klass e) (msg e) t (stack e).

Definition txnError_set_stack (s : string) (e : txnError) : txnError :=
  mkTxnError (klass e) (msg e) (when e) s.

(** [txnErrors] is a slice of error records: its elements in order and its
    capacity. The nil slice is [None] where a field holds a [txnErrors]. *)
Record txnErrors : Type := mkTxnErrors {
  elems : list txnError;
  capacity : Z
}.

(** Modelled from the spec: the type [apdexZone] is declared outside the
    embedded files, which name only [apdexNone] and [apdexFailing]. The spec's
    glossary gives the classification as one of satisfied, tolerated,
    frustrated/failing and none; the frustrated band and the failing zone are
    the one value [apdexFailing]. *)
Inductive apdexZone : Type :=
| apdexNone
| apdexSatisfying
| apdexTolerating
| apdexFailing.

(** Modelled from the spec: [calculateApdexZone] is defined outside the
    embedded files. The spec gives it as the standard three-way banding:
    satisfied when the duration is at most the threshold, tolerated when it is
    at most four times the threshold, frustrated beyond. *)
Definition calculateApdexZone (threshold duration : Duration) : apdexZone :=
  if duration <=? threshold then apdexSatisfying
  else if duration <=? 4 * threshold then apdexTolerating
  else apdexFailing.

(** [api.Config]: the fields the file reads. *)
Record ErrorCollectorConfig : Type := mkErrorCollector {
  ErrorCollector_Enabled : bool;
  ErrorCollector_CaptureEvents : bool;
  ErrorCollector_IgnoreStatusCodes : list Z
}.

Record api_Config : Type := mkConfig {
  HostDisplayName : string;
  HighSecurity : bool;
  TransactionEvents_Enabled : bool;
  ErrorCollector : ErrorCollectorConfig
}.

(** [ConnectReply]: the fields the file reads. The field [Reply] of a
    transaction is a pointer that [txn] dereferences without a nil check; the
    embedding holds the pointee. *)
Record ConnectReply : Type := mkReply {
  RunID : string;
  CollectAnalyticsEvents : bool;
  CollectErrorEvents : bool;
  CollectErrors : bool
}.

(** [*http.Request]: the fields the file reads. *)
Record http_Request : Type := mkRequest {
  Request_Method : string;
  Request_Header : http_Header;
  Request_URL : option string
}.

(** The agent-populated attributes the file assigns, and the user-populated
    entries, which only [addUserAttribute] touches. *)
Record agentAttributes : Type := mkAgent {
  HostDisplayNameAttr : string;
  RequestMethod : string;
  RequestAcceptHeader : string;
  RequestContentType : string;
  RequestHeadersHost : string;
  RequestHeadersUserAgent : string;
  RequestHeadersReferer : string;
  RequestContentLength : Z;
  ResponseHeadersContentType : string;
  ResponseHeadersContentLength : Z;
  ResponseCode : string
}.

Record attributes : Type := mkAttributes {
  agent : agentAttributes;
  user : list (string * any)
}.

(** The transaction record. Of the embedded [txnInput], [Request], [Config]
    and [Reply] are held here; [Writer] and [Consumer] are references to
    objects outside the record and live in [world] below. *)
Record txn : Type := mkTxn {
  Request : option http_Request;
  Config : api_Config;
  Reply : ConnectReply;
  finished : bool;
  queuing : Duration;
  start : Time;
  name : string;
  isWeb : bool;
  ignore : bool;
  errors : option txnErrors;
  errorsSeen : Z;
  attrs : attributes;
  wroteHeader : bool;
  stop : Time;
  duration : Duration;
  finalName : string;
  zone : apdexZone;
  apdexThreshold : Duration
}.

(** The response sink behind [txn.Writer]: its header map and the calls it has
    received, oldest first. *)
Inductive sinkCall : Type :=
| sinkWrite (b : string)
| sinkWriteHeader (code : Z).

Record ResponseWriter : Type := mkWriter {
  Writer_Header : http_Header;
  Writer_calls : list sinkCall
}.

(** The harvest consumer behind [txn.Consumer]: the calls of
    [consume(runID, txn)] it has received, oldest first, each with the record
    as it stood at the call. *)
Definition dataConsumer := list (string * txn).

Definition consume (c : dataConsumer) (runID : string) (t : txn) : dataConsumer :=
  (c ++ [(runID, t)])%list.

(** A transaction with the two objects it refers to. The writer is taken to
    be present: [Write] on a transaction without one dereferences nil. *)
Record world : Type := mkWorld {
  tx : txn;
  Writer : ResponseWriter;
  Consumer : dataConsumer
}.

(** What a call on the public surface does to its caller: return an [error]
    (nil is [None]), return the pair of [Write], return nothing, or panic. *)
Inductive outcome : Type :=
| Return (e : option error)
| ReturnWrite (n : Z) (e : option error)
| ReturnVoid
| Panic (v : any).

(** Field updates. *)
Definition set_finished (b : bool) (t : txn) : txn :=
  mkTxn (Request t) (Config t) (Reply t) b (queuing t) (start t) (name t)
    (isWeb t) (ignore t) (errors t) (errorsSeen t) (attrs t) (wroteHeader t)
    (stop t) (duration t) (finalName t) (zone t) (apdexThreshold t).

Definition set_name (s : string) (t : txn) : txn :=
  mkTxn (Request t) (Config t) (Reply t) (finished t) (queuing t) (start t) s
    (isWeb t) (ignore t) (errors t) (errorsSeen t) (attrs t) (wroteHeader t)
    (stop t) (duration t) (finalName t) (zone t) (apdexThreshold t).

Definition set_ignore (b : bool) (t : txn) : txn :=
  mkTxn (Request t) (Config t) (Reply t) (finished t) (queuing t) (start t)
    (name t) (isWeb t) b (errors t) (errorsSeen t) (attrs t) (wroteHeader t)
    (stop t) (duration t) (finalName t) (zone t) (apdexThreshold t).

Definition set_errors (e : option txnErrors) (t : txn) : txn :=
  mkTxn (Request t) (Config t) (Reply t) (finished t) (queuing t) (start t)
    (name t) (isWeb t) (ignore t) e (errorsSeen t) (attrs t) (wroteHeader t)
    (stop t) (duration t) (finalName t) (zone t) (apdexThreshold t).

Definition set_errorsSeen (n : Z) (t : txn) : txn :=
  mkTxn (Request t) (Config t) (Reply t) (finished t) (queuing t) (start t)
    (name t) (isWeb t) (ignore t) (errors t) n (attrs t) (wroteHeader t)
    (stop t) (duration t) (finalName t) (zone t) (apdexThreshold t).

Definition set_attrs (a : attributes) (t : txn) : txn :=
  mkTxn (Request t) (Config t) (Reply t) (finished t) (queuing t) (start t)
    (name t) (isWeb t) (ignore t) (errors t) (errorsSeen t) a (wroteHeader t)
    (stop t) (duration t) (finalName t) (zone t) (apdexThreshold t).

Definition set_wroteHeader (b : bool) (t : txn) : txn :=
  mkTxn (Request t) (Config t) (Reply t) (finished t) (queuing t) (start t)
    (name t) (isWeb t) (ignore t) (errors t) (errorsSeen t) (attrs t) b
    (stop t) (duration t) (finalName t) (zone t) (apdexThreshold t).

Definition set_stop (s : Time) (t : txn) : txn :=
  mkTxn (Request t) (Config t) (Reply t) (finished t) (queuing t) (start t)
    (name t) (isWeb t) (ignore t) (errors t) (errorsSeen t) (attrs t)
    (wroteHeader t) s (duration t) (finalName t) (zone t) (apdexThreshold t).

Definition set_duration (d : Duration) (t : txn) : txn :=
  mkTxn (Request t) (Config t) (Reply t) (finished t) (queuing t) (start t)
    (name t) (isWeb t) (ignore t) (errors t) (errorsSeen t) (attrs t)
    (wroteHeader t) (stop t) d (finalName t) (zone t) (apdexThreshold t).

Definition set_finalName (s : string) (t : txn) : txn :=
  mkTxn (Request t) (Config t) (Reply t) (finished t) (queuing t) (start t)
    (name t) (isWeb t) (ignore t) (errors t) (errorsSeen t) (attrs t)
    (wroteHeader t) (stop t) (duration t) s (zone t) (apdexThreshold t).

Definition set_zone (z : apdexZone) (t : txn) : txn :=
  mkTxn (Request t) (Config t) (Reply t) (finished t) (queuing t) (start t)
    (name t) (isWeb t) (ignore t) (errors t) (errorsSeen t) (attrs t)
    (wroteHeader t) (stop t) (duration t) (finalName t) z (apdexThreshold t).

Definition set_apdexThreshold (d : Duration) (t : txn) : txn :=
  mkTxn (Request t) (Config t) (Reply t) (finished t) (queuing t) (start t)
    (name t) (isWeb t) (ignore t) (errors t) (errorsSeen t) (attrs t)
    (wroteHeader t) (stop t) (duration t) (finalName t) (zone t) d.

Definition set_agent (g : agentAttributes) (a : attributes) : attributes :=
  mkAttributes g (user a).

Definition set_ResponseHeadersContentType (s : string) (g : agentAttributes)
  : agentAttributes :=
  mkAgent (HostDisplayNameAttr g) (RequestMethod g) (RequestAcceptHeader g)
    (RequestContentType g) (RequestHeadersHost g) (RequestHeadersUserAgent g)
    (RequestHeadersReferer g) (RequestContentLength g) s
    (ResponseHeadersContentLength g) (ResponseCode g).

Definition set_ResponseHeadersContentLength (x : Z) (g : agentAttributes)
  : agentAttributes :=
  mkAgent (HostDisplayNameAttr g) (RequestMethod g) (RequestAcceptHeader g)
    (RequestContentType g) (RequestHeadersHost g) (RequestHeadersUserAgent g)
    (RequestHeadersReferer g) (RequestContentLength g)
    (ResponseHeadersContentType g) x (ResponseCode g).

Definition set_ResponseCode (s : string) (g : agentAttributes)
  : agentAttributes :=
  mkAgent (HostDisplayNameAttr g) (RequestMethod g) (RequestAcceptHeader g)
    (RequestContentType g) (RequestHeadersHost g) (RequestHeadersUserAgent g)
    (RequestHeadersReferer g) (RequestContentLength g)
    (ResponseHeadersContentType g) (ResponseHeadersContentLength g) s.

Definition set_HostDisplayNameAttr (s : string) (g : agentAttributes)
  : agentAttributes :=
  mkAgent s (RequestMethod g) (RequestAcceptHeader g)
    (RequestContentType g) (RequestHeadersHost g) (RequestHeadersUserAgent g)
    (RequestHeadersReferer g) (RequestContentLength g)
    (ResponseHeadersContentType g) (ResponseHeadersContentLength g)
    (ResponseCode g).

(** ** [internal/txn]: collaborators

    What the file calls and the repository defines elsewhere. *)
Class Collaborators : Type := {
  (** [newAttributes(input.attrConfig)], for the configuration at hand. *)
  newAttributes : attributes;
  safeURLFromString : string -> string;
  queueDuration : http_Header -> Time -> Duration;
  (** [strconv.Atoi]: [None] when it returns an error. *)
  Atoi : string -> option Z;
  CreateFullTxnName : string -> ConnectReply -> bool -> string;
  calculateApdexThreshold : ConnectReply -> string -> Duration;
  txnErrorFromPanic : any -> txnError;
  txnErrorFromError : error -> txnError;
  txnErrorFromResponseCode : Z -> txnError;
  getStackTrace : Z -> string;
  maxTxnErrors : Z;
  newTxnErrors : Z -> txnErrors;
  (** [errors.Add(e)]: the bounded collection after the call. *)
  txnErrors_Add : txnErrors -> txnError -> txnErrors;
  destAll : Z;
  (** [addUserAttribute(a, name, value, dest)]: the holder after the call
      and the error returned. *)
  addUserAttribute :
    attributes -> string -> option any -> Z -> attributes * option error;
  (** What [Writer.Write(b)] returns. *)
  Writer_Write_result : ResponseWriter -> string -> Z * option error
}.

(** ** [internal/txn]: operations *)

Section Operations.
Context {X : Collaborators}.

(** [txn.Writer.Write(b)] and [txn.Writer.WriteHeader(code)] on the sink. *)
Definition Writer_Write (rw : ResponseWriter) (b : string)
  : ResponseWriter * (Z * option error) :=
  (mkWriter (Writer_Header rw) (Writer_calls rw ++ [sinkWrite b])%list,
   Writer_Write_result rw b).

Definition Writer_WriteHeader (rw : ResponseWriter) (code : Z)
  : ResponseWriter :=
  mkWriter (Writer_Header rw) (Writer_calls rw ++ [sinkWriteHeader code])%list.

(** [txnInput], without the writer and the consumer, which [world] holds. *)
Record txnInput : Type := mkInput {
  input_Request : option http_Request;
  input_Config : api_Config;
  input_Reply : ConnectReply
}.

(** [newTxn(input, name)]; [now] is the reading of [time.Now()]. Fields the
    composite literal leaves out hold their zero values; for [zone] that is
    taken to be [apdexNone]. *)
Definition newTxn (input : txnInput) (nm : string) (now : Time) : txn :=
  let t :=
    mkTxn (input_Request input) (input_Config input) (input_Reply input)
      false 0 now nm
      (match input_Request input with Some _ => true | None => false end)
      false None 0 newAttributes false 0 0 "" apdexNone 0 in
  let t :=
    match Request t with
    | Some req =>
        let h := Request_Header req in
        let g := agent (attrs t) in
        let g :=
          mkAgent (HostDisplayNameAttr g)
            (Request_Method req)
            (Header_Get h "Accept")
            (Header_Get h "Content-Type")
            (Header_Get h "Host")
            (Header_Get h "User-Agent")
            (safeURLFromString (Header_Get h "Referer"))
            (let cl := Header_Get h "Content-Length" in
             if negb (isEmpty cl) then
               match Atoi cl with
               | Some x => x
               | None => RequestContentLength g
               end
             else RequestContentLength g)
            (ResponseHeadersContentType g)
            (ResponseHeadersContentLength g)
            (ResponseCode g) in
        let t := set_attrs (set_agent g (attrs t)) t in
        mkTxn (Request t) (Config t) (Reply t) (finished t)
          (queueDuration h (start t)) (start t) (name t) (isWeb t) (ignore t)
          (errors t) (errorsSeen t) (attrs t) (wroteHeader t) (stop t)
          (duration t) (finalName t) (zone t) (apdexThreshold t)
    | None => t
    end in
  set_attrs
    (set_agent
       (set_HostDisplayNameAttr (HostDisplayName (Config t)) (agent (attrs t)))
       (attrs t))
    t.

Definition txnEventsEnabled (t : txn) : bool :=
  TransactionEvents_Enabled (Config t) && CollectAnalyticsEvents (Reply t).

Definition errorEventsEnabled (t : txn) : bool :=
  ErrorCollector_CaptureEvents (ErrorCollector (Config t))
  && CollectErrorEvents (Reply t).

Definition freezeName (t : txn) : txn :=
  if ignore t || negb (isEmpty (finalName t)) then t
  else
    let t := set_finalName (CreateFullTxnName (name t) (Reply t) (isWeb t)) t in
    if isEmpty (finalName t) then set_ignore true t else t.

Definition getsApdex (t : txn) : bool := isWeb t.

Definition StatusBadRequest : Z := 400.
Definition StatusOK : Z := 200.

Definition responseCodeIsError (cfg : api_Config) (code : Z) : bool :=
  if code <? StatusBadRequest then false
  else
    (fix range (l : list Z) : bool :=
       match l with
       | [] => true
       | ignoreCode :: l' => if code =? ignoreCode then false else range l'
       end) (ErrorCollector_IgnoreStatusCodes (ErrorCollector cfg)).

(** [statusCodeLookup]: the keys of the map with their values; a key that is
    absent reads as [""]. *)
Definition statusCodeTable : list (Z * string) :=
  [ (100, "100"); (101, "101");
    (200, "200"); (201, "201"); (202, "202"); (203, "203"); (204, "204");
    (205, "205"); (206, "206");
    (300, "300"); (301, "301"); (302, "302"); (303, "303"); (304, "304");
    (305, "305"); (307, "307");
    (400, "400"); (401, "401"); (402, "402"); (403, "403"); (404, "404");
    (405, "405"); (406, "406"); (407, "407"); (408, "408"); (409, "409");
    (410, "410"); (411, "411"); (412, "412"); (413, "413"); (414, "414");
    (415, "415"); (416, "416"); (417, "417"); (418, "418"); (428, "428");
    (429, "429"); (431, "431"); (451, "451");
    (500, "500"); (501, "501"); (502, "502"); (503, "503"); (504, "504");
    (505, "505"); (511, "511") ].

Definition statusCodeLookup (code : Z) : string :=
  match find (fun kv => fst kv =? code) statusCodeTable with
  | Some kv => snd kv
  | None => ""
  end.

(** [txn.noticeErrorInternal(err)]; [now] is the reading of [time.Now()],
    taken only when the record is stored. *)
Definition noticeErrorInternal (err : txnError) (now : Time) (t : txn)
  : txn * option error :=
  let t := set_errorsSeen (uint64 (errorsSeen t + 1)) t in
  if negb (ErrorCollector_Enabled (ErrorCollector (Config t))) then
    (t, Some ErrorsLocallyDisabled)
  else if negb (CollectErrors (Reply t)) then
    (t, Some ErrorsRemotelyDisabled)
  else
    let es :=
      match errors t with
      | None => newTxnErrors maxTxnErrors
      | Some es => es
      end in
    let err :=
      if HighSecurity (Config t) then txnError_set_msg HighSecurityErrorMsg err
      else err in
    let err := txnError_set_when now err in
    (set_errors (Some (txnErrors_Add es err)) t, None).

(** [headersJustWritten(txn, code)]; [h] is what [txn.Writer.Header()]
    returns. *)
Definition headersJustWritten (h : http_Header) (code : Z) (now : Time)
  (t : txn) : txn :=
  if finished t then t
  else if wroteHeader t then t
  else
    let t := set_wroteHeader true t in
    let g := agent (attrs t) in
    let g := set_ResponseHeadersContentType (Header_Get h "Content-Type") g in
    let g :=
      let val := Header_Get h "Content-Length" in
      if negb (isEmpty val) then
        match Atoi val with
        | Some x => set_ResponseHeadersContentLength x g
        | None => g
        end
      else g in
    let g := set_ResponseCode (statusCodeLookup code) g in
    let g :=
      if isEmpty (ResponseCode g) then set_ResponseCode (Itoa code) g else g in
    let t := set_attrs (set_agent g (attrs t)) t in
    if responseCodeIsError (Config t) code then
      let e := txnErrorFromResponseCode code in
      let e := txnError_set_stack (getStackTrace 1) e in
      fst (noticeErrorInternal e now t)
    else t.

Definition txn_Header (w : world) : http_Header := Writer_Header (Writer w).

Definition txn_Write (b : string) (now : Time) (w : world) : world * outcome :=
  let '(rw, (n, err)) := Writer_Write (Writer w) b in
  let t := headersJustWritten (Writer_Header rw) StatusOK now (tx w) in
  (mkWorld t rw (Consumer w), ReturnWrite n err).

Definition txn_WriteHeader (code : Z) (now : Time) (w : world)
  : world * outcome :=
  let rw := Writer_WriteHeader (Writer w) code in
  let t := headersJustWritten (Writer_Header rw) code now (tx w) in
  (mkWorld t rw (Consumer w), ReturnVoid).

(** [txn.End()]. [r] is what [recover()] returns: a value when the call is
    the deferred function of a panicking goroutine, nil otherwise. [nowErr]
    and [nowStop] are the readings of [time.Now()] in [noticeErrorInternal]
    and in [End]. The call to [log.Debug] writes to the agent's logger only
    and is left out. *)
Definition txn_End (r : option any) (nowErr nowStop : Time) (w : world)
  : world * outcome :=
  let t := tx w in
  if finished t then (w, Return (Some ErrAlreadyEnded))
  else
    let t := set_finished true t in
    let t :=
      match r with
      | Some v =>
          let e := txnErrorFromPanic v in
          let e := txnError_set_stack (getStackTrace 0) e in
          fst (noticeErrorInternal e nowErr t)
      | None => t
      end in
    let t := set_stop nowStop t in
    let t := set_duration (Time_Sub (stop t) (start t)) t in
    let t := freezeName t in
    let t :=
      if getsApdex t then
        let t :=
          set_apdexThreshold (calculateApdexThreshold (Reply t) (finalName t)) t in
        if 0 <? errorsSeen t then set_zone apdexFailing t
        else set_zone (calculateApdexZone (apdexThreshold t) (duration t)) t
      else set_zone apdexNone t in
    let c :=
      if negb (ignore t) then consume (Consumer w) (RunID (Reply t)) t
      else Consumer w in
    (mkWorld t (Writer w) c,
     match r with
     | Some v => Panic v
     | None => Return None
     end).

Definition txn_AddAttribute (nm : string) (value : option any) (w : world)
  : world * outcome :=
  let t := tx w in
  if finished t then (w, Return (Some ErrAlreadyEnded))
  else
    let '(a, err) := addUserAttribute (attrs t) nm value destAll in
    (mkWorld (set_attrs a t) (Writer w) (Consumer w), Return err).

Definition txn_NoticeError (err : option error) (now : Time) (w : world)
  : world * outcome :=
  let t := tx w in
  if finished t then (w, Return (Some ErrAlreadyEnded))
  else
    match err with
    | None => (w, Return (Some ErrNilError))
    | Some err =>
        let e := txnErrorFromError err in
        let e := txnError_set_stack (getStackTrace 1) e in
        let '(t, res) := noticeErrorInternal e now t in
        (mkWorld t (Writer w) (Consumer w), Return res)
    end.

Definition txn_SetName (nm : string) (w : world) : world * outcome :=
  let t := tx w in
  if finished t then (w, Return (Some ErrAlreadyEnded))
  else (mkWorld (set_name nm t) (Writer w) (Consumer w), Return None).

(** A call on the public transaction surface, with the environment readings
    it consumes. *)
Inductive call : Type :=
| callSetName (nm : string)
| callAddAttribute (nm : string) (value : option any)
| callNoticeError (err : option error) (now : Time)
| callEnd (r : option any) (nowErr nowStop : Time)
| callWrite (b : string) (now : Time)
| callWriteHeader (code : Z) (now : Time).

Definition step (c : call) (w : world) : world * outcome :=
  match c with
  | callSetName nm => txn_SetName nm w
  | callAddAttribute nm value => txn_AddAttribute nm value w
  | callNoticeError err now => txn_NoticeError err now w
  | callEnd r nowErr nowStop => txn_End r nowErr nowStop w
  | callWrite b now => txn_Write b now w
  | callWriteHeader code now => txn_WriteHeader code now w
  end.

(** A sequence of calls, one after the other: the final state and what each
    call did to its caller. A panic unwinds the caller of that call only; the
    deferred [Unlock] has run, and later calls come from other callers. *)
Fixpoint run (cs : list call) (w : world) : world * list outcome :=
  match cs with
  | [] => (w, [])
  | c :: cs' =>
      let '(w1, o) := step c w in
      let '(w2, os) := run cs' w1 in
      (w2, o :: os)
  end.

(** The records a transaction holds: [range txn.errors]. *)
Definition stored (t : txn) : list txnError :=
  match errors t with
  | None => []
  | Some es => elems es
  end.

End Operations.

(** ** [internal/txn]: notions the properties are stated with *)

(** The sequence of calls [End(); End(); ...], one per triple of environment
    readings. *)
Definition ends (l : list (option any * Time * Time)) : list call :=
  map (fun a => callEnd (fst (fst a)) (snd (fst a)) (snd a)) l.

(** A call that goes to the response sink. *)
Definition isHeaderWrite (c : call) : bool :=
  match c with
  | callWrite _ _ | callWriteHeader _ _ => true
  | _ => false
  end.

(** The bounded store holds nothing when created, and [Add] leaves in it only
    records it held before or the record it was given, as given. *)
Definition storeKeepsWhatItIsGiven {X : Collaborators} : Prop :=
  (forall n, elems (newTxnErrors n) = []) /\
  (forall es e x, In x (elems (txnErrors_Add es e)) -> x = e \/ In x (elems es)).

(** Every record held has the redaction string as its message. *)
Definition redacted (t : txn) : Prop :=
  Forall (fun e => msg e = HighSecurityErrorMsg) (stored t).

(** The record as [noticeErrorInternal] stores it. *)
Definition asStored (highSecurity : bool) (now : Time) (e : txnError) : txnError :=
  txnError_set_when now
    (if highSecurity then txnError_set_msg HighSecurityErrorMsg e else e).

(** The collection [noticeErrorInternal] adds to: the one held, or a new one
    when none is held yet. *)
Definition collection {X : Collaborators} (t : txn) : txnErrors :=
  match errors t with
  | None => newTxnErrors maxTxnErrors
  | Some es => es
  end.

(** The stages of [End] on an unfinished transaction: the recovered panic is
    noticed, the clock is stopped, the name is frozen, the zone is set. *)
Definition recovered {X : Collaborators} (r : option any) (nowErr : Time)
  (t : txn) : txn :=
  match r with
  | Some v =>
      fst (noticeErrorInternal
             (txnError_set_stack (getStackTrace 0) (txnErrorFromPanic v))
             nowErr t)
  | None => t
  end.

Definition stopped (nowStop : Time) (t : txn) : txn :=
  set_duration (Time_Sub nowStop (start t)) (set_stop nowStop t).

Definition classified {X : Collaborators} (t : txn) : txn :=
  if getsApdex t then
    let t :=
      set_apdexThreshold (calculateApdexThreshold (Reply t) (finalName t)) t in
    if 0 <? errorsSeen t then set_zone apdexFailing t
    else set_zone (calculateApdexZone (apdexThreshold t) (duration t)) t
  else set_zone apdexNone t.

(** The record [End] leaves behind on an unfinished transaction. *)
Definition finalized {X : Collaborators} (r : option any)
  (nowErr nowStop : Time) (t : txn) : txn :=
  classified
    (freezeName (stopped nowStop (recovered r nowErr (set_finished true t)))).

(** The record [headersJustWritten] leaves behind on its first run, before
    the status code is looked at. *)
Definition captured {X : Collaborators} (h : http_Header) (code : Z) (t : txn)
  : txn :=
  let g := agent (attrs t) in
  let g := set_ResponseHeadersContentType (Header_Get h "Content-Type") g in
  let g :=
    if negb (isEmpty (Header_Get h "Content-Length")) then
      match Atoi (Header_Get h "Content-Length") with
      | Some x => set_ResponseHeadersContentLength x g
      | None => g
      end
    else g in
  let g := set_ResponseCode (Itoa code) g in
  set_attrs (set_agent g (attrs t)) (set_wroteHeader true t).

End Txn.

(** ** [v3/newrelic/log_event.go] *)

Module Log.
Import Go.

Definition MaxLogLength : Z := 32768.

(** [priority] is an opaque sampling key, declared elsewhere. *)
Definition priority := Z.

Record logEvent : Type := mkLogEvent {
  event_priority : priority;
  timestamp : Z;
  severity : string;
  message : string;
  spanID : string;
  traceID : string
}.

(** The zero value [logEvent{}]. *)
Definition logEvent_zero : logEvent := mkLogEvent 0 0 "" "" "" "".

Record LogData : Type := mkLogData {
  Timestamp : Z;
  Severity : string;
  Message : string
}.

(** The error values of the file, and any other error ([getState]'s). *)
Inductive error : Type :=
| errNilLogData
| errLogMessageTooLarge
| errNilLogBuffer
| errNoApplication
| errOther (text : string).

(** [jsonFieldsWriter]: the buffer it writes to and its comma flag. The
    buffer is the one [WriteJSON] was given: a write through either name
    lands in [buf]. *)
Record jsonFieldsWriter : Type := mkFieldsWriter {
  buf : string;
  needsComma : bool
}.

Definition WriteByte (c : string) (w : jsonFieldsWriter) : jsonFieldsWriter :=
  mkFieldsWriter (buf w ++ c) (needsComma w).

Definition set_needsComma (b : bool) (w : jsonFieldsWriter) : jsonFieldsWriter :=
  mkFieldsWriter (buf w) b.

(** What the file calls and the repository defines elsewhere: the constants
    of package [logcontext], the methods of [jsonFieldsWriter], the clock
    conversion; and [strings.TrimSpace]. *)
Class Collaborators : Type := {
  LogSeverityUnknown : string;
  LogSeverityFieldName : string;
  LogMessageFieldName : string;
  LogSpanIDFieldName : string;
  LogTraceIDFieldName : string;
  LogTimestampFieldName : string;
  TrimSpace : string -> string;
  timeToUnixMilliseconds : Time -> Z;
  stringField : jsonFieldsWriter -> string -> string -> jsonFieldsWriter;
  intField : jsonFieldsWriter -> string -> Z -> jsonFieldsWriter
}.

Record TraceMetadata : Type := mkTraceMetadata {
  TraceID : string;
  SpanID : string
}.

(** The connected state [getState] returns: the fields the file reads. *)
Record appRun : Type := mkAppRun {
  Reply_EntityGUID : string;
  ApplicationLogging_Enabled : bool;
  LocalDecorating_Enabled : bool
}.

Record app : Type := mkApp {
  getState : appRun + error;
  config_AppName : string;
  config_hostname : string
}.

Record Application : Type := mkApplication {
  Application_app : option app
}.

(** [*Transaction]: what [txn.Application()] and
    [txn.thread.GetTraceMetadata()] return. *)
Record Transaction : Type := mkTransaction {
  Transaction_Application : Application;
  GetTraceMetadata : TraceMetadata
}.

Record logEnricherConfig : Type := mkEnricherConfig {
  cfg_app : option Application;
  cfg_txn : option Transaction
}.

Definition enricherOption := logEnricherConfig -> logEnricherConfig.

Definition FromApp (a : Application) : enricherOption :=
  fun cfg => mkEnricherConfig (Some a) (cfg_txn cfg).

Definition FromTxn (t : Transaction) : enricherOption :=
  fun cfg => mkEnricherConfig (cfg_app cfg) (Some t).

Record linkingMetadata : Type := mkLinkingMetadata {
  md_traceID : string;
  md_spanID : string;
  md_entityGUID : string;
  md_hostname : string;
  md_entityName : string
}.

(** [md.appendLinkingMetadata(buf)]: the buffer after the call. *)
Definition appendLinkingMetadata (md : linkingMetadata) (b : string) : string :=
  if isEmpty (md_entityGUID md) || isEmpty (md_entityName md)
     || isEmpty (md_hostname md)
  then b
  else
    let b := b ++ " NR-LINKING|" in
    if negb (isEmpty (md_traceID md)) && negb (isEmpty (md_spanID md)) then
      let b := b ++ md_entityGUID md in
      let b := b ++ "|" in
      let b := b ++ md_hostname md in
      let b := b ++ "|" in
      let b := b ++ md_traceID md in
      let b := b ++ "|" in
      let b := b ++ md_spanID md in
      let b := b ++ "|" in
      let b := b ++ md_entityName md in
      b ++ "|"
    else
      let b := b ++ md_entityGUID md in
      let b := b ++ "|" in
      let b := b ++ md_hostname md in
      let b := b ++ "|" in
      let b := b ++ md_entityName md in
      b ++ "|".

(** [EnrichLog(buf, opts)]: the buffer after the call (a nil buffer is
    [None]) and the error returned. *)
Definition EnrichLog (b : option string) (opts : enricherOption)
  : option string * option error :=
  let config := opts (mkEnricherConfig None None) in
  match b with
  | None => (b, Some errNilLogBuffer)
  | Some bytes =>
      let resolved :=
        match cfg_app config with
        | Some a => Some (a, mkTraceMetadata "" "")
        | None =>
            match cfg_txn config with
            | Some t => Some (Transaction_Application t, GetTraceMetadata t)
            | None => None
            end
        end in
      match resolved with
      | None => (b, Some errNoApplication)
      | Some (a, txnMD) =>
          match Application_app a with
          | None => (b, Some errNoApplication)
          | Some ap =>
              match getState ap with
              | inr err => (b, Some err)
              | inl reply =>
                  let md :=
                    mkLinkingMetadata (TraceID txnMD) (SpanID txnMD)
                      (Reply_EntityGUID reply) (config_hostname ap)
                      (config_AppName ap) in
                  if ApplicationLogging_Enabled reply
                     && LocalDecorating_Enabled reply
                  then (Some (appendLinkingMetadata md bytes), None)
                  else (b, None)
              end
          end
      end
  end.

Section Operations.
Context {X : Collaborators}.

(** [e.WriteJSON(buf)]: the contents of the buffer after the call. *)
Definition WriteJSON (e : logEvent) (b : string) : string :=
  let w := mkFieldsWriter b false in
  let w := WriteByte "{" w in
  let w := stringField w LogSeverityFieldName (severity e) in
  let w := stringField w LogMessageFieldName (message e) in
  let w :=
    if 0 <? len (spanID e) then stringField w LogSpanIDFieldName (spanID e)
    else w in
  let w :=
    if 0 <? len (traceID e) then stringField w LogTraceIDFieldName (traceID e)
    else w in
  let w := set_needsComma false w in
  let w := WriteByte "," w in
  let w := intField w LogTimestampFieldName (timestamp e) in
  let w := WriteByte "}" w in
  buf w.

(** [data.toLogEvent()]: the record [data] points to after the call (nil is
    [None]), the event and the error returned. [now] and [prio] are the
    readings of [time.Now()] and [newPriority()]. *)
Definition toLogEvent (data : option LogData) (now : Time) (prio : priority)
  : option LogData * (logEvent * option error) :=
  match data with
  | None => (None, (logEvent_zero, Some errNilLogData))
  | Some d =>
      let d :=
        if isEmpty (Severity d)
        then mkLogData (Timestamp d) LogSeverityUnknown (Message d)
        else d in
      if MaxLogLength <? len (Message d) then
        (Some d, (logEvent_zero, Some errLogMessageTooLarge))
      else
        let d :=
          if Timestamp d =? 0
          then mkLogData (int64 (timeToUnixMilliseconds now)) (Severity d)
                 (Message d)
          else d in
        let d := mkLogData (Timestamp d) (Severity d) (TrimSpace (Message d)) in
        let d := mkLogData (Timestamp d) (TrimSpace (Severity d)) (Message d) in
        let event :=
          mkLogEvent prio (Timestamp d) (Severity d) (Message d) "" "" in
        (Some d, (event, None))
  end.

End Operations.

(** The contract of [jsonFieldsWriter]: a field is written as a comma when
    one is due, the rendered key, a colon and the rendered value, and a comma
    is due from then on. [renderKey], [renderString] and [renderInt] are the
    JSON renderings of a key, a string value and an integer value. *)
Definition writesFields {X : Collaborators}
  (renderKey renderString : string -> string) (renderInt : Z -> string) : Prop :=
  (forall w k v,
     stringField w k v =
     mkFieldsWriter
       (buf w ++ (if needsComma w then "," else "") ++ renderKey k ++ ":"
        ++ renderString v)
       true) /\
  (forall w k v,
     intField w k v =
     mkFieldsWriter
       (buf w ++ (if needsComma w then "," else "") ++ renderKey k ++ ":"
        ++ renderInt v)
       true).

End Log.

(** ** Concrete collaborators

    One implementation of each interface, on which the operations compute. *)

Module Demo.
Import Go.

(** A bounded store that keeps the first [capacity] records and drops the
    rest; attributes accepted as given; a sink that accepts every byte. *)
Definition boundedAdd (es : Txn.txnErrors) (e : Txn.txnError) : Txn.txnErrors :=
  if Z.of_nat (List.length (Txn.elems es)) <? Txn.capacity es
  then Txn.mkTxnErrors (Txn.elems es ++ [e])%list (Txn.capacity es)
  else es.

Definition decimal (s : string) : option Z :=
  match NilZero.int_of_string s with
  | Some d => Some (Z.of_int d)
  | None => None
  end.

Definition fullName (nm : string) (reply : Txn.ConnectReply) (web : bool)
  : string :=
  if isEmpty nm then ""
  else if web then "WebTransaction/Go/" ++ nm
  else "OtherTransaction/Go/" ++ nm.

Definition acceptAttribute (a : Txn.attributes) (nm : string)
  (value : option Txn.any) (dest : Z) : Txn.attributes * option Txn.error :=
  match value with
  | Some v =>
      (Txn.mkAttributes (Txn.agent a) (Txn.user a ++ [(nm, v)])%list, None)
  | None => (a, Some (Txn.errorString "attribute value is nil"))
  end.

Definition panicText (v : Txn.any) : string :=
  match v with
  | Txn.anyString s => s
  | Txn.anyInt z => Itoa z
  | Txn.anyBool true => "true"
  | Txn.anyBool false => "false"
  | Txn.anyError _ => "error"
  end.

Definition errorText (e : Txn.error) : string :=
  match e with
  | Txn.ErrAlreadyEnded => "transaction has already ended"
  | Txn.ErrorsLocallyDisabled => "errors locally disabled"
  | Txn.ErrorsRemotelyDisabled => "errors remotely disabled"
  | Txn.ErrNilError => "nil error"
  | Txn.errorString s => s
  end.

#[export] Instance txnCollaborators : Txn.Collaborators := {|
  Txn.newAttributes :=
    Txn.mkAttributes (Txn.mkAgent "" "" "" "" "" "" "" 0 "" 0 "") [];
  Txn.safeURLFromString := fun s => s;
  Txn.queueDuration := fun _ _ => 0;
  Txn.Atoi := decimal;
  Txn.CreateFullTxnName := fullName;
  Txn.calculateApdexThreshold := fun _ _ => 500000000;
  Txn.txnErrorFromPanic := fun v => Txn.mkTxnError "panic" (panicText v) 0 "";
  Txn.txnErrorFromError := fun e => Txn.mkTxnError "error" (errorText e) 0 "";
  Txn.txnErrorFromResponseCode :=
    fun code => Txn.mkTxnError (Itoa code) "response code" 0 "";
  Txn.getStackTrace := fun _ => "goroutine 1 [running]";
  Txn.maxTxnErrors := 5;
  Txn.newTxnErrors := fun n => Txn.mkTxnErrors [] n;
  Txn.txnErrors_Add := boundedAdd;
  Txn.destAll := 15;
  Txn.addUserAttribute := acceptAttribute;
  Txn.Writer_Write_result := fun _ b => (len b, None)
|}.

Definition config (highSecurity localErrors : bool) : Txn.api_Config :=
  Txn.mkConfig "host-1" highSecurity true
    (Txn.mkErrorCollector localErrors true [418]).

Definition reply (remoteErrors : bool) : Txn.ConnectReply :=
  Txn.mkReply "run-7" true true remoteErrors.

Definition request : Txn.http_Request :=
  Txn.mkRequest "GET"
    [("Accept", ["*/*"]); ("Content-Length", ["12"])] (Some "/index").

Definition sink : Txn.ResponseWriter :=
  Txn.mkWriter [("Content-Type", ["text/plain"]); ("Content-Length", ["9"])] [].

(** A web transaction named ["/index"], started at instant 1000, in a world
    whose sink and consumer have received nothing. *)
Definition webWorld (highSecurity localErrors remoteErrors : bool) : Txn.world :=
  Txn.mkWorld
    (Txn.newTxn
       (Txn.mkInput (Some request) (config highSecurity localErrors)
          (reply remoteErrors))
       "/index" 1000)
    sink [].

(** A background transaction (no request) with an empty name: name
    resolution yields [""] and the transaction is ignored at [End]. *)
Definition ignoredWorld : Txn.world :=
  Txn.mkWorld
    (Txn.newTxn (Txn.mkInput None (config false true) (reply true)) "" 1000)
    sink [].

(** ASCII white space, as [strings.TrimSpace] treats it. *)
Definition isSpace (c : ascii) : bool :=
  match c with
  | " "%char | "009"%char | "010"%char | "011"%char | "012"%char
  | "013"%char => true
  | _ => false
  end.

Fixpoint trimLeft (s : string) : string :=
  match s with
  | String c s' => if isSpace c then trimLeft s' else s
  | EmptyString => s
  end.

Fixpoint trimRight (s : string) : string :=
  match s with
  | String c s' =>
      match trimRight s' with
      | EmptyString => if isSpace c then EmptyString else String c EmptyString
      | r => String c r
      end
  | EmptyString => s
  end.

Definition trimSpace (s : string) : string := trimRight (trimLeft s).

(** The string of [n] bytes ["x"]. *)
Fixpoint filler (n : nat) : string :=
  match n with
  | O => EmptyString
  | S n' => String "x" (filler n')
  end.

(** A field writer that separates fields by commas and renders
    [key:value], keys and string values between brackets. *)
Definition bracket (s : string) : string := "<" ++ s ++ ">".

Definition writeField (w : Log.jsonFieldsWriter) (key value : string)
  : Log.jsonFieldsWriter :=
  Log.mkFieldsWriter
    (Log.buf w ++ (if Log.needsComma w then "," else "") ++ bracket key
     ++ ":" ++ value)
    true.

#[export] Instance logCollaborators : Log.Collaborators := {|
  Log.LogSeverityUnknown := "UNKNOWN";
  Log.LogSeverityFieldName := "level";
  Log.LogMessageFieldName := "message";
  Log.LogSpanIDFieldName := "span.id";
  Log.LogTraceIDFieldName := "trace.id";
  Log.LogTimestampFieldName := "timestamp";
  Log.TrimSpace := trimSpace;
  Log.timeToUnixMilliseconds := fun t => t / 1000000;
  Log.stringField := fun w k v => writeField w k (bracket v);
  Log.intField := fun w k v => writeField w k (Itoa v)
|}.

(** The web transaction above, ended at instant 2000 with no panic in
    flight. *)
Definition endedWorld : Txn.world :=
  fst (Txn.txn_End (X := txnCollaborators) None 0 2000
         (webWorld false true true)).

(** Under high security, a 404 response and a noticed error: both records
    are held, both redacted. *)
Definition redactedCalls : list Txn.call :=
  [Txn.callWriteHeader 404 1200;
   Txn.callNoticeError (Some (Txn.errorString "boom")) 1500].

(** A web transaction with one noticed error, ended after 1000 ns against a
    threshold of 0.5 s: the zone is failing although the duration is below
    the threshold. *)
Definition failedWorld : Txn.world :=
  fst (Txn.txn_NoticeError (X := txnCollaborators)
         (Some (Txn.errorString "boom"))
         1500 (webWorld false true true)).

(** A record with no timestamp, no severity and a padded message, built at
    instant 5 s with priority 3. *)
Definition rawData : Log.LogData := Log.mkLogData 0 "" "  hi ".

(** The application of the spec's example: entity GUID ["G"], host ["H"],
    name ["N"], logging and local decoration enabled; and a transaction of
    that application in trace ["T"], span ["S"]. *)
Definition linkedApp : Log.app :=
  Log.mkApp (inl (Log.mkAppRun "G" true true)) "N" "H".

Definition linkedApplication : Log.Application :=
  Log.mkApplication (Some linkedApp).

Definition linkedTransaction : Log.Transaction :=
  Log.mkTransaction linkedApplication (Log.mkTraceMetadata "T" "S").

End Demo.

(** ** [internal/txn]: the merge into the harvest *)

Module Harvest.
Import Go Txn.

Record createTxnMetricsArgs : Type := mkMetricsArgs {
  args_IsWeb : bool;
  args_Duration : Duration;
  args_Name : string;
  args_Zone : apdexZone;
  args_ApdexThreshold : Duration;
  args_ErrorsSeen : Z
}.

Record txnEvent : Type := mkTxnEvent {
  txnEvent_Name : string;
  txnEvent_Timestamp : Time;
  txnEvent_Duration : Duration;
  txnEvent_queuing : Duration;
  txnEvent_zone : apdexZone;
  txnEvent_attrs : attributes
}.

Record errorEvent : Type := mkErrorEvent {
  errorEvent_klass : string;
  errorEvent_msg : string;
  errorEvent_when : Time;
  errorEvent_txnName : string;
  errorEvent_duration : Duration;
  errorEvent_queuing : Duration;
  errorEvent_attrs : attributes
}.

(** The harvest is what [mergeIntoHarvest] writes to and the file never
    reads: it is held as the calls it has received, oldest first. *)
Inductive harvestCall : Type :=
| createTxnMetrics (args : createTxnMetricsArgs)
| metrics_addDuration (nm scope : string) (d exclusive : Duration) (force : Z)
| addTxnEvent (event : txnEvent)
| mergeTxnErrors (errs : option txnErrors) (finalNm requestURI : string)
    (a : attributes)
| errorEvents_Add (e : errorEvent).

Definition harvest := list harvestCall.

(** What [mergeIntoHarvest] uses and the repository defines elsewhere. *)
Class Collaborators : Type := {
  queueMetric : string;
  forced : Z;
  (** [safeURL(u)], on the URL of the request. *)
  safeURL : string -> string
}.

Section Operations.
Context {H : Collaborators}.

(** [txn.mergeIntoHarvest(h)]: the harvest after the call. *)
Definition mergeIntoHarvest (t : txn) (h : harvest) : harvest :=
  let h :=
    (h ++ [createTxnMetrics
             (mkMetricsArgs (isWeb t) (duration t) (finalName t) (zone t)
                (apdexThreshold t) (errorsSeen t))])%list in
  let h :=
    if 0 <? queuing t
    then (h ++ [metrics_addDuration queueMetric "" (queuing t) (queuing t)
                  forced])%list
    else h in
  let h :=
    if txnEventsEnabled t
    then (h ++ [addTxnEvent
                  (mkTxnEvent (finalName t) (start t) (duration t) (queuing t)
                     (zone t) (attrs t))])%list
    else h in
  let requestURI :=
    match Request t with
    | Some req =>
        match Request_URL req with
        | Some u => safeURL u
        | None => ""
        end
    | None => ""
    end in
  let h :=
    (h ++ [mergeTxnErrors (errors t) (finalName t) requestURI (attrs t)])%list in
  if errorEventsEnabled t then
    (h ++ map (fun e =>
                 errorEvents_Add
                   (mkErrorEvent (klass e) (msg e) (when e) (finalName t)
                      (duration t) (queuing t) (attrs t)))
            (stored t))%list
  else h.

End Operations.

(** The error event [mergeIntoHarvest] builds from a stored record. *)
Definition eventOf (t : txn) (e : txnError) : errorEvent :=
  mkErrorEvent (klass e) (msg e) (when e) (finalName t) (duration t)
    (queuing t) (attrs t).

(** The error events among the calls a harvest has received. *)
Definition errorEventsOf (h : harvest) : list errorEvent :=
  flat_map (fun c => match c with errorEvents_Add e => [e] | _ => [] end) h.


#[export] Instance demo : Collaborators := {|
  queueMetric := "WebFrontend/QueueTime";
  forced := 1;
  safeURL := fun u => u
|}.

End Harvest.

(** ** Notions the further properties are stated with *)

Module Vocabulary.
Import Go Txn.

(** A call of [NoticeError], and the number of calls in a sequence that
    hand it a non-nil error. *)
Definition isNotice (c : call) : bool :=
  match c with
  | callNoticeError _ _ => true
  | _ => false
  end.

Fixpoint noticed (cs : list call) : Z :=
  match cs with
  | [] => 0
  | callNoticeError (Some _) _ :: cs' => 1 + noticed cs'
  | _ :: cs' => noticed cs'
  end.

(** What [NoticeError] returns for a nil error on a live transaction, and
    what it may return otherwise. *)
Definition noticeOutcome (c : call) (o : outcome) : Prop :=
  match c with
  | callNoticeError None _ => o = Return (Some ErrNilError)
  | _ =>
      o = Return None \/ o = Return (Some ErrorsLocallyDisabled)
      \/ o = Return (Some ErrorsRemotelyDisabled)
  end.

End Vocabulary.

Module LogVocabulary.
Import Go Log.

(** The application [EnrichLog] resolves from its options: the one given by
    [FromApp], else the one of the transaction given by [FromTxn]. *)
Definition sourceOf (opts : enricherOption) : option Application :=
  let config := opts (mkEnricherConfig None None) in
  match cfg_app config with
  | Some a => Some a
  | None =>
      match cfg_txn config with
      | Some t => Some (Transaction_Application t)
      | None => None
      end
  end.

(** Linking metadata with the given trace context. *)
Definition withTrace (T S : string) (md : linkingMetadata) : linkingMetadata :=
  mkLinkingMetadata T S (md_entityGUID md) (md_hostname md) (md_entityName md).

End LogVocabulary.

(** ** Concrete calls and events for the further properties *)

Module Samples.
Import Go.

(** Two errors handed to [NoticeError], with a nil in between. *)
Definition notices : list Txn.call :=
  [Txn.callNoticeError (Some (Txn.errorString "first")) 1100;
   Txn.callNoticeError None 1200;
   Txn.callNoticeError (Some (Txn.errorString "second")) 1300].

(** A body write followed by a late status 500. *)
Definition lateStatus : list Txn.call := [Txn.callWriteHeader 500 1300].

(** A rename, the end, and calls that come too late. *)
Definition lifecycle : list Txn.call :=
  [Txn.callSetName "/checkout"; Txn.callEnd None 0 2000;
   Txn.callEnd None 0 3000; Txn.callWriteHeader 500 3100].

(** An event that stands for none. *)
Definition noEvent : Harvest.errorEvent :=
  Harvest.mkErrorEvent "" "" 0 "" 0 0
    (Txn.newAttributes (Collaborators := Demo.txnCollaborators)).

(** A record whose message is one byte over the limit and whose severity is
    empty. *)
Definition oversized : Log.LogData :=
  Log.mkLogData 0 "" (Demo.filler (Z.to_nat 32769)).

End Samples.

(** * Properties of [internal/txn] *)

Module TxnFacts.
Import Go Txn.

Ltac break_if :=
  match goal with
  | |- context [if ?b then _ else _] => destruct b eqn:?
  | |- context [match ?o with Some _ => _ | None => _ end] => destruct o eqn:?
  end.

Section Facts.
Context {X : Collaborators}.

(** *** What [noticeErrorInternal] and [freezeName] touch *)

Lemma noticeErrorInternal_frame (e : txnError) (now : Time) (t : txn) :
  let t' := fst (noticeErrorInternal e now t) in
  Request t' = Request t /\ Config t' = Config t /\ Reply t' = Reply t /\
  finished t' = finished t /\ queuing t' = queuing t /\ start t' = start t /\
  name t' = name t /\ isWeb t' = isWeb t /\ ignore t' = ignore t /\
  attrs t' = attrs t /\ wroteHeader t' = wroteHeader t /\ stop t' = stop t /\
  duration t' = duration t /\ finalName t' = finalName t /\
  zone t' = zone t /\ apdexThreshold t' = apdexThreshold t.
Proof.
  unfold noticeErrorInternal; cbn.
  repeat break_if; cbn; repeat split; congruence.
Qed.

Lemma freezeName_frame (t : txn) :
  let t' := freezeName t in
  Request t' = Request t /\ Config t' = Config t /\ Reply t' = Reply t /\
  finished t' = finished t /\ queuing t' = queuing t /\ start t' = start t /\
  name t' = name t /\ isWeb t' = isWeb t /\ errors t' = errors t /\
  errorsSeen t' = errorsSeen t /\ attrs t' = attrs t /\
  wroteHeader t' = wroteHeader t /\ stop t' = stop t /\
  duration t' = duration t /\ zone t' = zone t /\
  apdexThreshold t' = apdexThreshold t.
Proof.
  unfold freezeName; cbn.
  repeat break_if; cbn; repeat split; congruence.
Qed.

Lemma noticeErrorInternal_Config (e : txnError) (now : Time) (t : txn) :
  Config (fst (noticeErrorInternal e now t)) = Config t.
Proof. apply (noticeErrorInternal_frame e now t). Qed.

Lemma noticeErrorInternal_Reply (e : txnError) (now : Time) (t : txn) :
  Reply (fst (noticeErrorInternal e now t)) = Reply t.
Proof. apply (noticeErrorInternal_frame e now t). Qed.

Lemma noticeErrorInternal_finished (e : txnError) (now : Time) (t : txn) :
  finished (fst (noticeErrorInternal e now t)) = finished t.
Proof. apply (noticeErrorInternal_frame e now t). Qed.

Lemma noticeErrorInternal_start (e : txnError) (now : Time) (t : txn) :
  start (fst (noticeErrorInternal e now t)) = start t.
Proof. apply (noticeErrorInternal_frame e now t). Qed.

Lemma noticeErrorInternal_isWeb (e : txnError) (now : Time) (t : txn) :
  isWeb (fst (noticeErrorInternal e now t)) = isWeb t.
Proof. apply (noticeErrorInternal_frame e now t). Qed.

Lemma noticeErrorInternal_attrs (e : txnError) (now : Time) (t : txn) :
  attrs (fst (noticeErrorInternal e now t)) = attrs t.
Proof. apply (noticeErrorInternal_frame e now t). Qed.

Lemma noticeErrorInternal_wroteHeader (e : txnError) (now : Time) (t : txn) :
  wroteHeader (fst (noticeErrorInternal e now t)) = wroteHeader t.
Proof. apply (noticeErrorInternal_frame e now t). Qed.

Lemma freezeName_Config (t : txn) : Config (freezeName t) = Config t.
Proof. apply (freezeName_frame t). Qed.

Lemma freezeName_Reply (t : txn) : Reply (freezeName t) = Reply t.
Proof. apply (freezeName_frame t). Qed.

Lemma freezeName_finished (t : txn) : finished (freezeName t) = finished t.
Proof. apply (freezeName_frame t). Qed.

Lemma freezeName_isWeb (t : txn) : isWeb (freezeName t) = isWeb t.
Proof. apply (freezeName_frame t). Qed.

Lemma freezeName_errors (t : txn) : errors (freezeName t) = errors t.
Proof. apply (freezeName_frame t). Qed.

Lemma freezeName_errorsSeen (t : txn) : errorsSeen (freezeName t) = errorsSeen t.
Proof. apply (freezeName_frame t). Qed.

Lemma freezeName_duration (t : txn) : duration (freezeName t) = duration t.
Proof. apply (freezeName_frame t). Qed.

Create Rewrite HintDb txn_frame.

#[local] Hint Rewrite
  noticeErrorInternal_Config
  noticeErrorInternal_Reply
  noticeErrorInternal_finished
  noticeErrorInternal_start
  noticeErrorInternal_isWeb
  noticeErrorInternal_attrs
  noticeErrorInternal_wroteHeader
  freezeName_Config
  freezeName_Reply
  freezeName_finished
  freezeName_isWeb
  freezeName_errors
  freezeName_errorsSeen
  freezeName_duration
  : txn_frame.

Ltac frame := repeat (progress (autorewrite with txn_frame; cbn)).

Lemma noticeErrorInternal_errorsSeen (e : txnError) (now : Time) (t : txn) :
  errorsSeen (fst (noticeErrorInternal e now t)) = uint64 (errorsSeen t + 1).
Proof.
  unfold noticeErrorInternal; cbn.
  repeat break_if; reflexivity.
Qed.

Lemma noticeErrorInternal_cases (e : txnError) (now : Time) (t : txn) :
  let local := ErrorCollector_Enabled (ErrorCollector (Config t)) in
  let remote := CollectErrors (Reply t) in
  let t' := fst (noticeErrorInternal e now t) in
  let res := snd (noticeErrorInternal e now t) in
  (local = false -> res = Some ErrorsLocallyDisabled /\ errors t' = errors t) /\
  (local = true -> remote = false ->
   res = Some ErrorsRemotelyDisabled /\ errors t' = errors t) /\
  (local = true -> remote = true ->
   res = None /\
   errors t' =
   Some (txnErrors_Add (collection t) (asStored (HighSecurity (Config t)) now e))).
Proof.
  unfold noticeErrorInternal, collection, asStored; cbn.
  destruct (ErrorCollector_Enabled (ErrorCollector (Config t)));
    destruct (CollectErrors (Reply t)); cbn;
    repeat split; intros; try discriminate; reflexivity.
Qed.

(** *** Calls on a finished transaction *)

Lemma headersJustWritten_finished (h : http_Header) (code : Z) (now : Time)
  (t : txn) :
  finished t = true -> headersJustWritten h code now t = t.
Proof. intros H; unfold headersJustWritten; rewrite H; reflexivity. Qed.

Lemma headersJustWritten_wroteHeader (h : http_Header) (code : Z) (now : Time)
  (t : txn) :
  wroteHeader t = true -> headersJustWritten h code now t = t.
Proof.
  intros H; unfold headersJustWritten; rewrite H.
  destruct (finished t); reflexivity.
Qed.

Lemma txn_End_finished (r : option any) (nowErr nowStop : Time) (w : world) :
  finished (tx w) = true ->
  txn_End r nowErr nowStop w = (w, Return (Some ErrAlreadyEnded)).
Proof. intros H; unfold txn_End; rewrite H; reflexivity. Qed.

Lemma run_ends_finished (l : list (option any * Time * Time)) (w : world) :
  finished (tx w) = true ->
  run (ends l) w = (w, repeat (Return (Some ErrAlreadyEnded)) (length l)).
Proof.
  intros H; induction l as [| a l IH]; cbn [ends map run length repeat step].
  - reflexivity.
  - rewrite txn_End_finished by exact H.
    change (map _ l) with (ends l); rewrite IH; reflexivity.
Qed.

(** *** [End] on an unfinished transaction *)

Lemma txn_End_unfinished (r : option any) (nowErr nowStop : Time) (w : world) :
  finished (tx w) = false ->
  let t1 := finalized r nowErr nowStop (tx w) in
  txn_End r nowErr nowStop w =
  (mkWorld t1 (Writer w)
     (if ignore t1 then Consumer w
      else (Consumer w ++ [(RunID (Reply t1), t1)])%list),
   match r with Some v => Panic v | None => Return None end).
Proof.
  intros H; unfold txn_End; rewrite H.
  change
    ((mkWorld (finalized r nowErr nowStop (tx w)) (Writer w)
        (if negb (ignore (finalized r nowErr nowStop (tx w)))
         then consume (Consumer w)
                (RunID (Reply (finalized r nowErr nowStop (tx w))))
                (finalized r nowErr nowStop (tx w))
         else Consumer w),
      match r with Some v => Panic v | None => Return None end) =
     (mkWorld (finalized r nowErr nowStop (tx w)) (Writer w)
        (if ignore (finalized r nowErr nowStop (tx w)) then Consumer w
         else (Consumer w ++
               [(RunID (Reply (finalized r nowErr nowStop (tx w))),
                 finalized r nowErr nowStop (tx w))])%list),
      match r with Some v => Panic v | None => Return None end)).
  destruct (ignore (finalized r nowErr nowStop (tx w))); reflexivity.
Qed.

Lemma classified_frame (t : txn) :
  let t' := classified t in
  Config t' = Config t /\ Reply t' = Reply t /\ finished t' = finished t /\
  isWeb t' = isWeb t /\ errors t' = errors t /\
  errorsSeen t' = errorsSeen t /\ duration t' = duration t /\
  ignore t' = ignore t /\ finalName t' = finalName t.
Proof.
  unfold classified, getsApdex; cbn.
  repeat break_if; cbn; repeat split; congruence.
Qed.

Lemma finalized_finished (r : option any) (nowErr nowStop : Time) (t : txn) :
  finished (finalized r nowErr nowStop t) = true.
Proof.
  unfold finalized.
  destruct (classified_frame
              (freezeName (stopped nowStop (recovered r nowErr (set_finished true t)))))
    as (_ & _ & -> & _).
  unfold stopped, recovered; destruct r; frame; reflexivity.
Qed.

Lemma finalized_frame (r : option any) (nowErr nowStop : Time) (t : txn) :
  let t0 := recovered r nowErr (set_finished true t) in
  let t1 := finalized r nowErr nowStop t in
  Config t1 = Config t /\ Reply t1 = Reply t /\ isWeb t1 = isWeb t /\
  errors t1 = errors t0 /\ errorsSeen t1 = errorsSeen t0 /\
  duration t1 = Time_Sub nowStop (start t).
Proof.
  cbv zeta; unfold finalized.
  destruct (classified_frame
              (freezeName (stopped nowStop (recovered r nowErr (set_finished true t)))))
    as (-> & -> & _ & -> & -> & -> & -> & _).
  unfold stopped, recovered; destruct r; frame; repeat split; reflexivity.
Qed.

Lemma recovered_errorsSeen (r : option any) (nowErr : Time) (t : txn) :
  errorsSeen (recovered r nowErr (set_finished true t)) =
  match r with
  | Some _ => uint64 (errorsSeen t + 1)
  | None => errorsSeen t
  end.
Proof.
  unfold recovered; destruct r; [| reflexivity].
  rewrite noticeErrorInternal_errorsSeen; reflexivity.
Qed.

Lemma classified_zone (t : txn) :
  let t' := classified t in
  (isWeb t = false -> zone t' = apdexNone) /\
  (isWeb t = true -> 0 < errorsSeen t -> zone t' = apdexFailing) /\
  (isWeb t = true -> errorsSeen t <= 0 ->
   apdexThreshold t' = calculateApdexThreshold (Reply t) (finalName t) /\
   zone t' = calculateApdexZone (apdexThreshold t') (duration t)).
Proof.
  unfold classified, getsApdex; cbn.
  destruct (isWeb t); cbn.
  - destruct (0 <? errorsSeen t) eqn:E; cbn.
    + apply Z.ltb_lt in E.
      repeat split; intros; try discriminate; try reflexivity; lia.
    + apply Z.ltb_ge in E.
      repeat split; intros; try discriminate; try reflexivity; lia.
  - repeat split; intros; try discriminate; reflexivity.
Qed.

(** *** The first run of [headersJustWritten] *)

Lemma statusCodeTable_decimal :
  forallb
    (fun kv => String.eqb (snd kv) (Itoa (fst kv)) && negb (isEmpty (snd kv)))
    statusCodeTable = true.
Proof. vm_compute; reflexivity. Qed.

(** The string stored as the response code is the decimal rendering of the
    code, from the table or from [Itoa]. *)
Lemma statusCodeLookup_Itoa (code : Z) :
  (if isEmpty (statusCodeLookup code) then Itoa code else statusCodeLookup code)
  = Itoa code.
Proof.
  unfold statusCodeLookup.
  destruct (find (fun kv => fst kv =? code) statusCodeTable) as [kv |] eqn:F.
  - apply find_some in F; destruct F as [I E].
    apply Z.eqb_eq in E.
    pose proof statusCodeTable_decimal as T.
    rewrite forallb_forall in T; specialize (T kv I).
    apply andb_true_iff in T; destruct T as [T1 T2].
    apply String.eqb_eq in T1. apply negb_true_iff in T2.
    rewrite T2, T1, E; reflexivity.
  - reflexivity.
Qed.

Lemma responseCodeIsError_spec (cfg : api_Config) (code : Z) :
  responseCodeIsError cfg code = true <->
  400 <= code /\ ~ In code (ErrorCollector_IgnoreStatusCodes (ErrorCollector cfg)).
Proof.
  unfold responseCodeIsError, StatusBadRequest.
  destruct (code <? 400) eqn:L.
  - apply Z.ltb_lt in L; split; [discriminate | lia].
  - apply Z.ltb_ge in L.
    induction (ErrorCollector_IgnoreStatusCodes (ErrorCollector cfg))
      as [| c l IH]; cbn [In].
    + tauto.
    + destruct (code =? c) eqn:E.
      * apply Z.eqb_eq in E; split; [discriminate |].
        intros [_ N]; exfalso; apply N; left; congruence.
      * apply Z.eqb_neq in E; rewrite IH.
        split; intros [G N]; (split; [exact G |]); intuition congruence.
Qed.

Lemma headersJustWritten_first (h : http_Header) (code : Z) (now : Time)
  (t : txn) :
  finished t = false -> wroteHeader t = false ->
  headersJustWritten h code now t =
  if responseCodeIsError (Config t) code then
    fst (noticeErrorInternal
           (txnError_set_stack (getStackTrace 1) (txnErrorFromResponseCode code))
           now (captured h code t))
  else captured h code t.
Proof.
  intros F W; unfold headersJustWritten; rewrite F, W.
  assert (E :
    set_attrs
      (set_agent
         (let g := agent (attrs (set_wroteHeader true t)) in
          let g := set_ResponseHeadersContentType (Header_Get h "Content-Type") g in
          let g :=
            let val := Header_Get h "Content-Length" in
            if negb (isEmpty val) then
              match Atoi val with
              | Some x => set_ResponseHeadersContentLength x g
              | None => g
              end
            else g in
          let g := set_ResponseCode (statusCodeLookup code) g in
          if isEmpty (ResponseCode g) then set_ResponseCode (Itoa code) g else g)
         (attrs (set_wroteHeader true t)))
      (set_wroteHeader true t) = captured h code t).
  { unfold captured; cbv zeta.
    pose proof (statusCodeLookup_Itoa code) as S.
    cbn [ResponseCode set_ResponseCode].
    destruct (isEmpty (statusCodeLookup code));
      [reflexivity | rewrite S; reflexivity]. }
  cbv zeta in E |- *. rewrite E.
  replace (Config (captured h code t)) with (Config t) by reflexivity.
  reflexivity.
Qed.

(** *** What every call keeps *)

Lemma headersJustWritten_frame (h : http_Header) (code : Z) (now : Time)
  (t : txn) :
  let t' := headersJustWritten h code now t in
  Config t' = Config t /\ Reply t' = Reply t /\ finished t' = finished t /\
  isWeb t' = isWeb t.
Proof.
  cbv zeta.
  destruct (finished t) eqn:F.
  { rewrite headersJustWritten_finished by exact F; auto. }
  destruct (wroteHeader t) eqn:W.
  { rewrite headersJustWritten_wroteHeader by exact W; auto. }
  rewrite headersJustWritten_first by assumption.
  destruct (responseCodeIsError (Config t) code); frame; auto.
Qed.

Lemma step_frame (c : call) (w : world) :
  let t' := tx (fst (step c w)) in
  Config t' = Config (tx w) /\ Reply t' = Reply (tx w) /\
  isWeb t' = isWeb (tx w).
Proof.
  cbv zeta.
  destruct c as [nm | nm value | err now | r nowErr nowStop | b now | code now];
    cbn [step].
  - unfold txn_SetName; destruct (finished (tx w)); cbn; auto.
  - unfold txn_AddAttribute; destruct (finished (tx w)); cbn; auto.
    destruct (addUserAttribute (attrs (tx w)) nm value destAll); cbn; auto.
  - unfold txn_NoticeError; destruct (finished (tx w)); cbn; auto.
    destruct err as [err |]; cbn; auto.
    destruct (noticeErrorInternal _ now (tx w)) as [t res] eqn:E; cbn.
    change t with (fst (t, res)); rewrite <- E; frame; auto.
  - destruct (finished (tx w)) eqn:F.
    + rewrite txn_End_finished by exact F; auto.
    + rewrite txn_End_unfinished by exact F; cbn [fst tx].
      destruct (finalized_frame r nowErr nowStop (tx w)) as (-> & -> & -> & _).
      auto.
  - unfold txn_Write, Writer_Write.
    destruct (Writer_Write_result (Writer w) b) as [n e]; cbn [fst tx].
    destruct (headersJustWritten_frame
                (Writer_Header
                   (mkWriter (Writer_Header (Writer w))
                      (Writer_calls (Writer w) ++ [sinkWrite b])%list))
                StatusOK now (tx w)) as (-> & -> & _ & ->).
    auto.
  - unfold txn_WriteHeader; cbn [fst tx].
    destruct (headersJustWritten_frame
                (Writer_Header (Writer_WriteHeader (Writer w) code))
                code now (tx w)) as (-> & -> & _ & ->).
    auto.
Qed.

(** *** Redaction is kept by every call *)

Lemma redacted_ext (t t' : txn) :
  errors t' = errors t -> redacted t -> redacted t'.
Proof. unfold redacted, stored; intros ->; auto. Qed.

Lemma noticeErrorInternal_redacted (e : txnError) (now : Time) (t : txn) :
  storeKeepsWhatItIsGiven ->
  HighSecurity (Config t) = true ->
  redacted t -> redacted (fst (noticeErrorInternal e now t)).
Proof.
  intros [N A] HS R.
  destruct (noticeErrorInternal_cases e now t) as (L & M & B); cbv zeta in *.
  destruct (ErrorCollector_Enabled (ErrorCollector (Config t))).
  2: { destruct (L eq_refl) as [_ E]; exact (redacted_ext _ _ E R). }
  destruct (CollectErrors (Reply t)).
  2: { destruct (M eq_refl eq_refl) as [_ E]; exact (redacted_ext _ _ E R). }
  destruct (B eq_refl eq_refl) as [_ E].
  unfold redacted, stored in *; rewrite E, HS.
  apply Forall_forall; intros x I.
  apply A in I; destruct I as [-> | I]; [reflexivity |].
  unfold collection in I; destruct (errors t) as [es |].
  - rewrite Forall_forall in R; exact (R x I).
  - rewrite N in I; destruct I.
Qed.

Lemma step_redacted (c : call) (w : world) :
  storeKeepsWhatItIsGiven ->
  HighSecurity (Config (tx w)) = true ->
  redacted (tx w) -> redacted (tx (fst (step c w))).
Proof.
  intros S HS R.
  assert (HJ : forall h code now,
             redacted (headersJustWritten h code now (tx w))).
  { intros h code now.
    destruct (finished (tx w)) eqn:F.
    { rewrite headersJustWritten_finished by exact F; exact R. }
    destruct (wroteHeader (tx w)) eqn:W.
    { rewrite headersJustWritten_wroteHeader by exact W; exact R. }
    rewrite headersJustWritten_first by assumption.
    destruct (responseCodeIsError (Config (tx w)) code).
    - apply noticeErrorInternal_redacted; [exact S | exact HS |].
      exact (redacted_ext (tx w) _ eq_refl R).
    - exact (redacted_ext (tx w) _ eq_refl R). }
  destruct c as [nm | nm value | err now | r nowErr nowStop | b now | code now];
    cbn [step].
  - unfold txn_SetName; destruct (finished (tx w)); cbn [fst tx]; [exact R |].
    exact (redacted_ext (tx w) _ eq_refl R).
  - unfold txn_AddAttribute; destruct (finished (tx w)); cbn [fst tx]; [exact R |].
    destruct (addUserAttribute (attrs (tx w)) nm value destAll); cbn [fst tx].
    exact (redacted_ext (tx w) _ eq_refl R).
  - unfold txn_NoticeError; destruct (finished (tx w)); cbn [fst tx]; [exact R |].
    destruct err as [err |]; cbn [fst tx]; [| exact R].
    destruct (noticeErrorInternal _ now (tx w)) as [t res] eqn:E; cbn [fst tx].
    change t with (fst (t, res)); rewrite <- E.
    apply noticeErrorInternal_redacted; assumption.
  - destruct (finished (tx w)) eqn:F.
    + rewrite txn_End_finished by exact F; exact R.
    + rewrite txn_End_unfinished by exact F; cbn [fst tx].
      destruct (finalized_frame r nowErr nowStop (tx w)) as (_ & _ & _ & E & _).
      apply (redacted_ext _ _ E).
      unfold recovered; destruct r as [v |].
      * apply noticeErrorInternal_redacted; [exact S | exact HS |].
        exact (redacted_ext (tx w) _ eq_refl R).
      * exact (redacted_ext (tx w) _ eq_refl R).
  - unfold txn_Write, Writer_Write.
    destruct (Writer_Write_result (Writer w) b) as [n e]; cbn [fst tx].
    apply HJ.
  - unfold txn_WriteHeader; cbn [fst tx]; apply HJ.
Qed.

Lemma run_cons (c : call) (cs : list call) (w : world) :
  run (c :: cs) w =
  (fst (run cs (fst (step c w))), snd (step c w) :: snd (run cs (fst (step c w)))).
Proof.
  cbn [run]. destruct (step c w) as [w1 o]; cbn [fst snd].
  destruct (run cs w1); reflexivity.
Qed.

Lemma run_redacted (cs : list call) (w : world) :
  storeKeepsWhatItIsGiven ->
  HighSecurity (Config (tx w)) = true ->
  redacted (tx w) -> redacted (tx (fst (run cs w))).
Proof.
  intros S; revert w; induction cs as [| c cs IH]; intros w HS R.
  - exact R.
  - rewrite run_cons; cbn [fst].
    apply IH.
    + destruct (step_frame c w) as (-> & _); exact HS.
    + apply step_redacted; assumption.
Qed.

Lemma newTxn_fresh (input : txnInput) (nm : string) (now : Time) :
  let t := newTxn input nm now in
  Config t = input_Config input /\ Reply t = input_Reply input /\
  finished t = false /\ errors t = None /\ errorsSeen t = 0 /\
  wroteHeader t = false /\
  isWeb t = match input_Request input with Some _ => true | None => false end.
Proof.
  unfold newTxn; destruct (input_Request input); cbn; repeat split; reflexivity.
Qed.

(** C1. On a transaction that has not ended, the first [End()] sets
    [finished], does not report [ErrAlreadyEnded] (it returns nil, or
    re-panics with the recovered value), and hands the finalized record to
    the consumer exactly once, or not at all when the transaction is ignored.
    Every later [End()] returns [ErrAlreadyEnded] and leaves the record, the
    sink and the consumer as they were: over the whole sequence of calls the
    consumer is invoked once, or never. *)
Theorem End_finalizes_and_merges_once (w : world) (r : option any)
  (nowErr nowStop : Time) (l : list (option any * Time * Time)) :
  finished (tx w) = false ->
  let first := txn_End r nowErr nowStop w in
  let w1 := fst first in
  finished (tx w1) = true /\
  snd first = match r with Some v => Panic v | None => Return None end /\
  Consumer w1 =
    (if ignore (tx w1) then Consumer w
     else (Consumer w ++ [(RunID (Reply (tx w1)), tx w1)])%list) /\
  run (ends l) w1 = (w1, repeat (Return (Some ErrAlreadyEnded)) (length l)) /\
  Consumer (fst (run (callEnd r nowErr nowStop :: ends l) w)) = Consumer w1.
Proof.
  intros H first w1.
  assert (E : first =
              (w1, match r with Some v => Panic v | None => Return None end)).
  { subst w1 first. rewrite (txn_End_unfinished r nowErr nowStop w H).
    reflexivity. }
  assert (F : finished (tx w1) = true).
  { subst w1 first. rewrite (txn_End_unfinished r nowErr nowStop w H).
    cbn [fst tx]. apply finalized_finished. }
  assert (R : run (ends l) w1 =
              (w1, repeat (Return (Some ErrAlreadyEnded)) (length l))).
  { apply run_ends_finished; exact F. }
  split; [exact F |].
  split; [rewrite E; reflexivity |].
  split.
  { subst w1 first. rewrite (txn_End_unfinished r nowErr nowStop w H).
    reflexivity. }
  split; [exact R |].
  cbn [run step]. fold first. rewrite E, R. reflexivity.
Qed.

(** C2, as amended. On a transaction that has ended, every call of the
    public surface, and every sequence of such calls, leaves the transaction
    record and the consumer as they were. [SetName], [AddAttribute],
    [NoticeError] and [End] return [ErrAlreadyEnded] and leave the sink
    alone; [Write] and [WriteHeader] still reach the sink, and return what
    the sink returns and nothing. *)
Theorem calls_after_End_change_nothing (w : world) (c : call)
  (cs : list call) :
  finished (tx w) = true ->
  tx (fst (run cs w)) = tx w /\
  Consumer (fst (run cs w)) = Consumer w /\
  tx (fst (step c w)) = tx w /\
  Consumer (fst (step c w)) = Consumer w /\
  match c with
  | callWrite b _ =>
      Writer (fst (step c w)) = fst (Writer_Write (Writer w) b) /\
      snd (step c w) =
        ReturnWrite (fst (Writer_Write_result (Writer w) b))
          (snd (Writer_Write_result (Writer w) b))
  | callWriteHeader code _ =>
      Writer (fst (step c w)) = Writer_WriteHeader (Writer w) code /\
      snd (step c w) = ReturnVoid
  | _ =>
      Writer (fst (step c w)) = Writer w /\
      snd (step c w) = Return (Some ErrAlreadyEnded)
  end.
Proof.
  assert (One : forall w c,
            finished (tx w) = true ->
            tx (fst (step c w)) = tx w /\
            Consumer (fst (step c w)) = Consumer w /\
            match c with
            | callWrite b _ =>
                Writer (fst (step c w)) = fst (Writer_Write (Writer w) b) /\
                snd (step c w) =
                  ReturnWrite (fst (Writer_Write_result (Writer w) b))
                    (snd (Writer_Write_result (Writer w) b))
            | callWriteHeader code _ =>
                Writer (fst (step c w)) = Writer_WriteHeader (Writer w) code /\
                snd (step c w) = ReturnVoid
            | _ =>
                Writer (fst (step c w)) = Writer w /\
                snd (step c w) = Return (Some ErrAlreadyEnded)
            end).
  { clear; intros w c H.
    destruct c as [nm | nm value | err now | r nowErr nowStop | b now | code now];
      cbn [step].
    - unfold txn_SetName; rewrite H; cbn; auto.
    - unfold txn_AddAttribute; rewrite H; cbn; auto.
    - unfold txn_NoticeError; rewrite H; cbn; auto.
    - rewrite txn_End_finished by exact H; cbn; auto.
    - unfold txn_Write, Writer_Write.
      destruct (Writer_Write_result (Writer w) b) as [n e]; cbn.
      rewrite headersJustWritten_finished by exact H; auto.
    - unfold txn_WriteHeader; cbn.
      rewrite headersJustWritten_finished by exact H; auto. }
  intros H.
  assert (Many : forall cs w, finished (tx w) = true ->
                   tx (fst (run cs w)) = tx w /\
                   Consumer (fst (run cs w)) = Consumer w).
  { clear - One; induction cs as [| c' cs IH]; intros w H; [auto |].
    rewrite run_cons; cbn [fst].
    destruct (One w c' H) as (T & C & _).
    destruct (IH (fst (step c' w))) as [T' C']; [rewrite T; exact H |].
    rewrite T', C', T, C; auto. }
  destruct (Many cs w H) as [T C].
  split; [exact T |]. split; [exact C |].
  exact (One w c H).
Qed.

(** C3. [NoticeError] of a non-nil error on a transaction that has not ended
    increments [errorsSeen] (a [uint64]) whatever the two gates say. With
    local capture disabled it returns [ErrorsLocallyDisabled]; with local
    capture enabled and remote permission absent it returns
    [ErrorsRemotelyDisabled]; in both cases the error collection is the one
    held before, so an empty collection remains empty. Only when both gates
    pass is the record added to the bounded collection and nil returned. *)
Theorem NoticeError_counts_before_the_gates (w : world) (err : error)
  (now : Time) :
  finished (tx w) = false ->
  let local := ErrorCollector_Enabled (ErrorCollector (Config (tx w))) in
  let remote := CollectErrors (Reply (tx w)) in
  let e := txnError_set_stack (getStackTrace 1) (txnErrorFromError err) in
  let w' := fst (txn_NoticeError (Some err) now w) in
  let res := snd (txn_NoticeError (Some err) now w) in
  errorsSeen (tx w') = uint64 (errorsSeen (tx w) + 1) /\
  (0 <= errorsSeen (tx w) < 2 ^ 64 - 1 ->
   errorsSeen (tx w') = errorsSeen (tx w) + 1) /\
  (local = false ->
   res = Return (Some ErrorsLocallyDisabled) /\ errors (tx w') = errors (tx w)) /\
  (local = true -> remote = false ->
   res = Return (Some ErrorsRemotelyDisabled) /\
   errors (tx w') = errors (tx w)) /\
  (local && remote = false -> stored (tx w) = [] -> stored (tx w') = []) /\
  (local = true -> remote = true ->
   res = Return None /\
   errors (tx w') =
   Some (txnErrors_Add (collection (tx w))
           (asStored (HighSecurity (Config (tx w))) now e))) /\
  (res = Return None -> local = true /\ remote = true).
Proof.
  intros H local remote e w' res.
  assert (E : txn_NoticeError (Some err) now w =
              (mkWorld (fst (noticeErrorInternal e now (tx w))) (Writer w)
                 (Consumer w),
               Return (snd (noticeErrorInternal e now (tx w))))).
  { unfold txn_NoticeError; rewrite H; fold e.
    destruct (noticeErrorInternal e now (tx w)); reflexivity. }
  subst w' res; rewrite E; cbn [fst snd tx].
  pose proof (noticeErrorInternal_errorsSeen e now (tx w)) as S.
  destruct (noticeErrorInternal_cases e now (tx w)) as (L & M & B).
  cbv zeta in L, M, B; fold local remote in L, M, B.
  split; [exact S |].
  split.
  { intros R; rewrite S; unfold uint64; apply Z.mod_small; lia. }
  split.
  { intros A; destruct (L A) as [-> ->]; auto. }
  split.
  { intros A A'; destruct (M A A') as [-> ->]; auto. }
  split.
  { intros A N; unfold stored in *.
    destruct local.
    - destruct remote; [discriminate A |].
      destruct (M eq_refl eq_refl) as [_ ->]; exact N.
    - destruct (L eq_refl) as [_ ->]; exact N. }
  split.
  { intros A A'; destruct (B A A') as [-> ->]; auto. }
  intros R.
  destruct local.
  - destruct remote; [auto |].
    destruct (M eq_refl eq_refl) as [R' _]; rewrite R' in R; discriminate R.
  - destruct (L eq_refl) as [R' _]; rewrite R' in R; discriminate R.
Qed.

(** While a gate is off nothing is ever stored: from [newTxn] on, whatever
    calls are made, the error collection stays nil. *)
Lemma nothing_stored_while_a_gate_is_off (input : txnInput) (nm : string)
  (now : Time) (rw : ResponseWriter) (c : dataConsumer) (cs : list call) :
  ErrorCollector_Enabled (ErrorCollector (input_Config input))
  && CollectErrors (input_Reply input) = false ->
  errors (tx (fst (run cs (mkWorld (newTxn input nm now) rw c)))) = None.
Proof.
  intros G.
  destruct (newTxn_fresh input nm now) as (C & R & _ & E & _).
  cbv zeta in C, R, E.
  assert (I : forall cs w,
             ErrorCollector_Enabled (ErrorCollector (Config (tx w)))
             && CollectErrors (Reply (tx w)) = false ->
             errors (tx w) = None ->
             errors (tx (fst (run cs w))) = None).
  { clear. induction cs as [| c cs IH]; intros w G E; [exact E |].
    rewrite run_cons; cbn [fst].
    destruct (step_frame c w) as (C & R & _); cbv zeta in C, R.
    apply IH; [rewrite C, R; exact G |].
    assert (N : forall e now t,
               ErrorCollector_Enabled (ErrorCollector (Config t))
               && CollectErrors (Reply t) = false ->
               errors (fst (noticeErrorInternal e now t)) = errors t).
    { clear; intros e now t G.
      destruct (noticeErrorInternal_cases e now t) as (L & M & _).
      cbv zeta in L, M.
      destruct (ErrorCollector_Enabled (ErrorCollector (Config t))).
      - destruct (CollectErrors (Reply t)); [discriminate G |].
        apply M; reflexivity.
      - apply L; reflexivity. }
    assert (HJ : forall h code now,
               errors (headersJustWritten h code now (tx w)) = None).
    { intros h code now.
      destruct (finished (tx w)) eqn:F.
      { rewrite headersJustWritten_finished by exact F; exact E. }
      destruct (wroteHeader (tx w)) eqn:W.
      { rewrite headersJustWritten_wroteHeader by exact W; exact E. }
      rewrite headersJustWritten_first by assumption.
      destruct (responseCodeIsError (Config (tx w)) code); [| exact E].
      rewrite N; [exact E | exact G]. }
    destruct c as [nm | nm value | err now | r nowErr nowStop | b now | code now];
      cbn [step].
    - unfold txn_SetName; destruct (finished (tx w)); exact E.
    - unfold txn_AddAttribute; destruct (finished (tx w)); [exact E |].
      destruct (addUserAttribute (attrs (tx w)) nm value destAll); exact E.
    - unfold txn_NoticeError; destruct (finished (tx w)); [exact E |].
      destruct err as [err |]; [| exact E].
      destruct (noticeErrorInternal _ now (tx w)) as [t res] eqn:Q; cbn [fst tx].
      change t with (fst (t, res)); rewrite <- Q, N; [exact E | exact G].
    - destruct (finished (tx w)) eqn:F.
      + rewrite txn_End_finished by exact F; exact E.
      + rewrite txn_End_unfinished by exact F; cbn [fst tx].
        destruct (finalized_frame r nowErr nowStop (tx w))
          as (_ & _ & _ & -> & _).
        unfold recovered; destruct r; [| exact E].
        rewrite N; [exact E | exact G].
    - unfold txn_Write, Writer_Write.
      destruct (Writer_Write_result (Writer w) b); cbn [fst tx]; apply HJ.
    - unfold txn_WriteHeader; cbn [fst tx]; apply HJ. }
  apply I; cbn [tx]; [rewrite C, R; exact G | exact E].
Qed.

(** C4. With high-security mode on, and a bounded store that holds only
    what it is given, every error record a transaction holds has the fixed
    redaction string as its message: from [newTxn] on, after any calls with
    any failures. *)
Theorem HighSecurity_redacts_every_stored_error (input : txnInput)
  (nm : string) (now : Time) (rw : ResponseWriter) (c : dataConsumer)
  (cs : list call) (e : txnError) :
  storeKeepsWhatItIsGiven ->
  HighSecurity (input_Config input) = true ->
  In e (stored (tx (fst (run cs (mkWorld (newTxn input nm now) rw c))))) ->
  msg e = HighSecurityErrorMsg.
Proof.
  intros S HS I.
  destruct (newTxn_fresh input nm now) as (C & _ & _ & E & _).
  cbv zeta in C, E.
  assert (R : redacted (tx (fst (run cs (mkWorld (newTxn input nm now) rw c))))).
  { apply run_redacted; cbn [tx].
    - exact S.
    - rewrite C; exact HS.
    - unfold redacted, stored; rewrite E; constructor. }
  unfold redacted in R; rewrite Forall_forall in R; exact (R e I).
Qed.

(** C5. At [End] of a transaction that has not ended: a transaction that is
    not web-classified gets zone [apdexNone]; a web-classified one with a
    positive error count gets [apdexFailing], whatever its duration and
    threshold; a web-classified one with no error counted gets the band of
    its duration against the threshold computed from the frozen name:
    satisfying up to the threshold, tolerating up to four times the
    threshold, failing (frustrated) beyond. The error count is the one at
    finalize, a recovered panic included. *)
Theorem End_classifies_by_apdex (w : world) (r : option any)
  (nowErr nowStop : Time) :
  finished (tx w) = false ->
  let t1 := tx (fst (txn_End r nowErr nowStop w)) in
  isWeb t1 = isWeb (tx w) /\
  errorsSeen t1 =
    match r with
    | Some _ => uint64 (errorsSeen (tx w) + 1)
    | None => errorsSeen (tx w)
    end /\
  duration t1 = Time_Sub nowStop (start (tx w)) /\
  (isWeb t1 = false -> zone t1 = apdexNone) /\
  (isWeb t1 = true -> 0 < errorsSeen t1 -> zone t1 = apdexFailing) /\
  (isWeb t1 = true -> errorsSeen t1 = 0 ->
   apdexThreshold t1 = calculateApdexThreshold (Reply t1) (finalName t1) /\
   (duration t1 <= apdexThreshold t1 -> zone t1 = apdexSatisfying) /\
   (apdexThreshold t1 < duration t1 <= 4 * apdexThreshold t1 ->
    zone t1 = apdexTolerating) /\
   (apdexThreshold t1 < duration t1 -> 4 * apdexThreshold t1 < duration t1 ->
    zone t1 = apdexFailing)).
Proof.
  intros H t1.
  subst t1; rewrite (txn_End_unfinished r nowErr nowStop w H); cbn [fst tx].
  destruct (finalized_frame r nowErr nowStop (tx w)) as (_ & _ & W & _ & S & D).
  cbv zeta in W, S, D.
  rewrite recovered_errorsSeen in S.
  split; [exact W |]. split; [exact S |]. split; [exact D |].
  unfold finalized in *.
  set (t0 := freezeName
               (stopped nowStop (recovered r nowErr (set_finished true (tx w)))))
    in *.
  destruct (classified_frame t0) as (_ & QR & _ & QW & _ & QS & QD & _ & QN).
  destruct (classified_zone t0) as (ZN & ZF & ZB).
  cbv zeta in QR, QW, QS, QD, QN, ZN, ZF, ZB.
  rewrite QW, QS, QD, QR, QN.
  split; [exact ZN |]. split; [exact ZF |].
  intros A B.
  assert (B' : errorsSeen t0 <= 0) by lia.
  destruct (ZB A B') as [T Z].
  split; [exact T |].
  rewrite Z; unfold calculateApdexZone.
  repeat split; intros;
    repeat match goal with
    | |- context [?a <=? ?b] =>
        let Q := fresh in destruct (Z.leb_spec a b) as [Q | Q]
    end; try reflexivity; lia.
Qed.

(** C6. On a transaction that has neither ended nor written its header,
    [WriteHeader] with an error status (at least 400 and not in the ignore
    list) captures the header once: it records the response content type,
    the decimal string of the code, and runs [noticeErrorInternal] once on
    the error built from the code, so the error count rises by one and the
    collection receives at most that one record. A second [WriteHeader], and
    any later [Write] or [WriteHeader], leaves the record as the first call
    left it. *)
Theorem WriteHeader_twice_captures_once (w : world) (code code' : Z)
  (now now' : Time) (later : list call) :
  finished (tx w) = false ->
  wroteHeader (tx w) = false ->
  400 <= code ->
  ~ In code (ErrorCollector_IgnoreStatusCodes (ErrorCollector (Config (tx w)))) ->
  let w1 := fst (txn_WriteHeader code now w) in
  let w2 := fst (txn_WriteHeader code' now' w1) in
  let e := txnError_set_stack (getStackTrace 1) (txnErrorFromResponseCode code) in
  let h := Writer_Header (Writer w) in
  tx w1 = fst (noticeErrorInternal e now (captured h code (tx w))) /\
  wroteHeader (tx w1) = true /\
  ResponseCode (agent (attrs (tx w1))) = Itoa code /\
  ResponseHeadersContentType (agent (attrs (tx w1))) =
    Header_Get h "Content-Type" /\
  ResponseHeadersContentLength (agent (attrs (tx w1))) =
    (if isEmpty (Header_Get h "Content-Length")
     then ResponseHeadersContentLength (agent (attrs (tx w)))
     else match Atoi (Header_Get h "Content-Length") with
          | Some x => x
          | None => ResponseHeadersContentLength (agent (attrs (tx w)))
          end) /\
  errorsSeen (tx w1) = uint64 (errorsSeen (tx w) + 1) /\
  errors (tx w1) =
    (if ErrorCollector_Enabled (ErrorCollector (Config (tx w)))
        && CollectErrors (Reply (tx w))
     then Some (txnErrors_Add (collection (tx w))
                  (asStored (HighSecurity (Config (tx w))) now e))
     else errors (tx w)) /\
  tx w2 = tx w1 /\
  (forallb isHeaderWrite later = true -> tx (fst (run later w1)) = tx w1).
Proof.
  intros F W G N w1 w2 e h.
  assert (E1 : tx w1 = fst (noticeErrorInternal e now (captured h code (tx w)))).
  { subst w1; unfold txn_WriteHeader; cbn [fst tx].
    rewrite headersJustWritten_first by assumption.
    replace (responseCodeIsError (Config (tx w)) code) with true
      by (symmetry; apply responseCodeIsError_spec; auto).
    reflexivity. }
  assert (W1 : wroteHeader (tx w1) = true).
  { rewrite E1, noticeErrorInternal_wroteHeader; reflexivity. }
  assert (K : forall c w0, wroteHeader (tx w0) = true ->
                isHeaderWrite c = true -> tx (fst (step c w0)) = tx w0).
  { intros c w0 W0 I; destruct c; try discriminate I; cbn [step].
    - unfold txn_Write, Writer_Write.
      destruct (Writer_Write_result (Writer w0) b); cbn [fst tx].
      apply headersJustWritten_wroteHeader; exact W0.
    - unfold txn_WriteHeader; cbn [fst tx].
      apply headersJustWritten_wroteHeader; exact W0. }
  split; [exact E1 |].
  split; [exact W1 |].
  split; [rewrite E1, noticeErrorInternal_attrs; reflexivity |].
  split.
  { rewrite E1, noticeErrorInternal_attrs; unfold captured; cbn.
    repeat break_if; reflexivity. }
  split.
  { rewrite E1, noticeErrorInternal_attrs; unfold captured; cbn.
    destruct (isEmpty (Header_Get h "Content-Length")); cbn; [reflexivity |].
    destruct (Atoi (Header_Get h "Content-Length")); reflexivity. }
  split; [rewrite E1, noticeErrorInternal_errorsSeen; reflexivity |].
  split.
  { rewrite E1.
    destruct (noticeErrorInternal_cases e now (captured h code (tx w)))
      as (L & M & B).
    cbv zeta in L, M, B.
    change (Config (captured h code (tx w))) with (Config (tx w)) in *.
    change (Reply (captured h code (tx w))) with (Reply (tx w)) in *.
    change (collection (captured h code (tx w))) with (collection (tx w)) in *.
    change (errors (captured h code (tx w))) with (errors (tx w)) in *.
    destruct (ErrorCollector_Enabled (ErrorCollector (Config (tx w)))).
    - destruct (CollectErrors (Reply (tx w))); cbn [andb].
      + apply B; reflexivity.
      + apply M; reflexivity.
    - apply L; reflexivity. }
  split; [exact (K (callWriteHeader code' now') w1 W1 eq_refl) |].
  assert (KK : forall cs w0, wroteHeader (tx w0) = true ->
                 forallb isHeaderWrite cs = true ->
                 tx (fst (run cs w0)) = tx w0).
  { clear - K.
    induction cs as [| c cs IH]; intros w0 W0 A; [reflexivity |].
    cbn [forallb] in A; apply andb_true_iff in A; destruct A as [A1 A2].
    rewrite run_cons; cbn [fst].
    rewrite IH; [apply K; assumption | | exact A2].
    rewrite K; assumption. }
  apply KK; exact W1.
Qed.

End Facts.

(** *** The theorems at concrete transactions *)

Lemma End_finalizes_and_merges_once_witness :
  finished (tx (Demo.webWorld false true true)) = false /\
  length (Consumer Demo.endedWorld) = 1%nat /\
  run (X := Demo.txnCollaborators) (ends [(None, 0, 3000); (None, 0, 4000)])
    Demo.endedWorld =
  (Demo.endedWorld, [Return (Some ErrAlreadyEnded); Return (Some ErrAlreadyEnded)]).
Proof.
  split; [reflexivity |].
  split; [reflexivity |].
  exact (proj1 (proj2 (proj2 (proj2
           (End_finalizes_and_merges_once (X := Demo.txnCollaborators)
              (Demo.webWorld false true true) None 0 2000
              [(None, 0, 3000); (None, 0, 4000)] eq_refl))))).
Defined.

(** C2, as stated, fails at [Write]: on the ended transaction the call
    returns the sink's result, [(4, nil)], and not [ErrAlreadyEnded]; a
    statement that every call on an ended transaction returns
    [ErrAlreadyEnded] is therefore false. *)
Lemma Write_after_End_returns_sink_result :
  finished (tx Demo.endedWorld) = true /\
  snd (step (X := Demo.txnCollaborators) (callWrite "late" 2500) Demo.endedWorld) =
    ReturnWrite 4 None /\
  ~ (forall (w : world) (c : call),
       finished (tx w) = true ->
       snd (step (X := Demo.txnCollaborators) c w) =
         Return (Some ErrAlreadyEnded) /\
       tx (fst (step (X := Demo.txnCollaborators) c w)) = tx w).
Proof.
  split; [reflexivity |].
  split; [reflexivity |].
  intros H.
  destruct (H Demo.endedWorld (callWrite "late" 2500) eq_refl) as [E _].
  discriminate E.
Qed.

Lemma calls_after_End_change_nothing_witness :
  finished (tx Demo.endedWorld) = true /\
  tx (fst (step (X := Demo.txnCollaborators) (callSetName "other") Demo.endedWorld)) =
    tx Demo.endedWorld /\
  snd (step (X := Demo.txnCollaborators) (callSetName "other") Demo.endedWorld) =
    Return (Some ErrAlreadyEnded).
Proof.
  pose proof (calls_after_End_change_nothing (X := Demo.txnCollaborators)
                Demo.endedWorld (callSetName "other") [] eq_refl) as H.
  destruct H as (_ & _ & T & _ & _ & R).
  split; [reflexivity |].
  split; [exact T | exact R].
Defined.

(** The web transaction of [Demo] with both gates off, after
    [NoticeError(errors.New("boom"))] at instant 1500. *)
Lemma NoticeError_counts_before_the_gates_witness :
  finished (tx (Demo.webWorld false false false)) = false /\
  errorsSeen
    (tx (fst (txn_NoticeError (X := Demo.txnCollaborators)
                (Some (errorString "boom")) 1500
                (Demo.webWorld false false false)))) = 1 /\
  snd (txn_NoticeError (X := Demo.txnCollaborators)
         (Some (errorString "boom")) 1500 (Demo.webWorld false false false)) =
    Return (Some ErrorsLocallyDisabled) /\
  errors
    (tx (fst (txn_NoticeError (X := Demo.txnCollaborators)
                (Some (errorString "boom")) 1500
                (Demo.webWorld false false false)))) = None.
Proof.
  pose proof (NoticeError_counts_before_the_gates (X := Demo.txnCollaborators)
                (Demo.webWorld false false false) (errorString "boom") 1500
                eq_refl) as H.
  cbv zeta in H.
  destruct H as (_ & S & L & _).
  split; [reflexivity |].
  split; [exact (S ltac:(cbn; lia)) |].
  exact (L eq_refl).
Defined.

Lemma boundedAdd_keeps_what_it_is_given :
  storeKeepsWhatItIsGiven (X := Demo.txnCollaborators).
Proof.
  split; [vm_compute; reflexivity |].
  intros es e x; cbn; unfold Demo.boundedAdd.
  destruct (Z.of_nat (length (elems es)) <? capacity es); cbn; intros I.
  - apply in_app_or in I; destruct I as [I | [I | []]]; auto.
  - auto.
Qed.

Lemma HighSecurity_redacts_every_stored_error_witness :
  storeKeepsWhatItIsGiven (X := Demo.txnCollaborators) /\
  HighSecurity (Demo.config true true) = true /\
  In (mkTxnError "error" HighSecurityErrorMsg 1500 "goroutine 1 [running]")
    (stored (tx (fst (run (X := Demo.txnCollaborators) Demo.redactedCalls
                        (Demo.webWorld true true true))))) /\
  msg (mkTxnError "error" HighSecurityErrorMsg 1500 "goroutine 1 [running]") =
    HighSecurityErrorMsg.
Proof.
  assert (I : In (mkTxnError "error" HighSecurityErrorMsg 1500
                    "goroutine 1 [running]")
                (stored (tx (fst (run (X := Demo.txnCollaborators) Demo.redactedCalls
                                    (Demo.webWorld true true true)))))).
  { vm_compute; right; left; reflexivity. }
  split; [exact boundedAdd_keeps_what_it_is_given |].
  split; [vm_compute; reflexivity |].
  split; [exact I |].
  exact (HighSecurity_redacts_every_stored_error (X := Demo.txnCollaborators)
           (mkInput (Some Demo.request) (Demo.config true true) (Demo.reply true))
           "/index" 1000 Demo.sink [] Demo.redactedCalls _
           boundedAdd_keeps_what_it_is_given ltac:(vm_compute; reflexivity) I).
Defined.

Lemma End_classifies_by_apdex_witness :
  finished (tx Demo.failedWorld) = false /\
  duration (tx (fst (txn_End (X := Demo.txnCollaborators) None 0 2000
                       Demo.failedWorld))) = 1000 /\
  apdexThreshold (tx (fst (txn_End (X := Demo.txnCollaborators) None 0 2000
                             Demo.failedWorld))) = 500000000 /\
  zone (tx (fst (txn_End (X := Demo.txnCollaborators) None 0 2000
                   Demo.failedWorld))) = apdexFailing.
Proof.
  pose proof (End_classifies_by_apdex (X := Demo.txnCollaborators) Demo.failedWorld
                None 0 2000 ltac:(vm_compute; reflexivity)) as H.
  cbv zeta in H.
  destruct H as (_ & _ & _ & _ & Z & _).
  split; [vm_compute; reflexivity |].
  split; [vm_compute; reflexivity |].
  split; [vm_compute; reflexivity |].
  exact (Z ltac:(vm_compute; reflexivity) ltac:(vm_compute; reflexivity)).
Defined.

(** Status 404 written twice on the web transaction of [Demo]: one record
    is held, and the second call changes nothing. *)
Lemma WriteHeader_twice_captures_once_witness :
  finished (tx (Demo.webWorld false true true)) = false /\
  wroteHeader (tx (Demo.webWorld false true true)) = false /\
  400 <= 404 /\
  ~ In 404 (ErrorCollector_IgnoreStatusCodes
              (ErrorCollector (Config (tx (Demo.webWorld false true true))))) /\
  tx (fst (txn_WriteHeader (X := Demo.txnCollaborators) 404 1300
             (fst (txn_WriteHeader (X := Demo.txnCollaborators) 404 1200
                     (Demo.webWorld false true true))))) =
  tx (fst (txn_WriteHeader (X := Demo.txnCollaborators) 404 1200
             (Demo.webWorld false true true))) /\
  length (stored (tx (fst (txn_WriteHeader (X := Demo.txnCollaborators) 404 1300
                            (fst (txn_WriteHeader (X := Demo.txnCollaborators)
                                    404 1200
                                    (Demo.webWorld false true true)))))))
  = 1%nat.
Proof.
  assert (N : ~ In 404 (ErrorCollector_IgnoreStatusCodes
                          (ErrorCollector
                             (Config (tx (Demo.webWorld false true true)))))).
  { vm_compute; intros [H | []]; discriminate H. }
  pose proof (WriteHeader_twice_captures_once (X := Demo.txnCollaborators)
                (Demo.webWorld false true true) 404 404 1200 1300 []
                ltac:(vm_compute; reflexivity) ltac:(vm_compute; reflexivity)
                ltac:(lia) N) as H.
  cbv zeta in H.
  destruct H as (_ & _ & _ & _ & _ & _ & _ & E & _).
  split; [vm_compute; reflexivity |].
  split; [vm_compute; reflexivity |].
  split; [lia |].
  split; [exact N |].
  split; [exact E | vm_compute; reflexivity].
Defined.

End TxnFacts.

(** * Properties of [v3/newrelic/log_event.go] *)

Module LogFacts.
Import Go Log.

Lemma append_assoc (a b c : string) : (a ++ b) ++ c = a ++ b ++ c.
Proof. induction a as [| x a IH]; cbn; [reflexivity | rewrite IH; reflexivity]. Qed.

Lemma len_positive (s : string) : (0 <? len s) = negb (isEmpty s).
Proof.
  destruct s; [reflexivity |].
  unfold len; cbn [String.length isEmpty negb].
  apply Z.ltb_lt; lia.
Qed.

Section Facts.
Context {X : Collaborators}.

(** C7. [toLogEvent] returns [errNilLogData] exactly when [data] is nil,
    [errLogMessageTooLarge] exactly when the message is longer than 32768
    bytes, and otherwise succeeds with an event whose severity is
    [LogSeverityUnknown] when the input severity was the empty string and
    the trimmed input severity otherwise, whose timestamp is the current
    time in epoch milliseconds when the input timestamp was zero and the
    input timestamp otherwise, and whose message is the trimmed input
    message. The sentinel is taken to have no white space around it. *)
Theorem toLogEvent_validates_and_defaults (data : option LogData) (now : Time)
  (prio : priority) :
  TrimSpace LogSeverityUnknown = LogSeverityUnknown ->
  let res := toLogEvent data now prio in
  let ev := fst (snd res) in
  let err := snd (snd res) in
  (err = Some errNilLogData <-> data = None) /\
  (err = Some errLogMessageTooLarge <->
   exists d, data = Some d /\ 32768 < len (Message d)) /\
  (forall d, data = Some d -> len (Message d) <= 32768 ->
   err = None /\
   event_priority ev = prio /\
   severity ev =
     (if isEmpty (Severity d) then LogSeverityUnknown
      else TrimSpace (Severity d)) /\
   timestamp ev =
     (if Timestamp d =? 0 then int64 (timeToUnixMilliseconds now)
      else Timestamp d) /\
   message ev = TrimSpace (Message d) /\
   spanID ev = "" /\ traceID ev = "").
Proof.
  intros U res ev err; subst ev err res.
  destruct data as [d |]; cbn [toLogEvent].
  2: { cbn; repeat split; try congruence.
       intros (d & E & _); discriminate E. }
  assert (M : Message
                (if isEmpty (Severity d)
                 then mkLogData (Timestamp d) LogSeverityUnknown (Message d)
                 else d) = Message d)
    by (destruct (isEmpty (Severity d)); reflexivity).
  rewrite M; unfold MaxLogLength.
  destruct (Z.ltb_spec 32768 (len (Message d))) as [L | L]; cbn [fst snd].
  - split; [split; congruence |].
    split; [split; [intros _; exists d; auto | reflexivity] |].
    intros d' E; injection E as <-; lia.
  - split; [split; congruence |].
    split.
    { split; [discriminate |].
      intros (d' & E & L'); injection E as <-; lia. }
    intros d' E _; injection E as <-.
    destruct (isEmpty (Severity d)); cbn;
      destruct (Timestamp d =? 0); cbn; rewrite ?U; repeat split; reflexivity.
Qed.

(** C10. A successful [toLogEvent] writes through its receiver: afterwards
    the caller's record holds the defaulted, trimmed severity, the defaulted
    timestamp and the trimmed message, the very values of the event
    returned; it differs from the record passed in whenever the message had
    white space to trim, the severity was empty, or the timestamp was zero
    (and the sentinel and the clock reading are not themselves empty and
    zero). *)
Theorem toLogEvent_normalizes_its_input_in_place (d : LogData) (now : Time)
  (prio : priority) :
  TrimSpace LogSeverityUnknown = LogSeverityUnknown ->
  len (Message d) <= 32768 ->
  let res := toLogEvent (Some d) now prio in
  let ev := fst (snd res) in
  exists d',
    fst res = Some d' /\
    snd (snd res) = None /\
    Severity d' =
      (if isEmpty (Severity d) then LogSeverityUnknown
       else TrimSpace (Severity d)) /\
    Timestamp d' =
      (if Timestamp d =? 0 then int64 (timeToUnixMilliseconds now)
       else Timestamp d) /\
    Message d' = TrimSpace (Message d) /\
    severity ev = Severity d' /\
    timestamp ev = Timestamp d' /\
    message ev = Message d' /\
    (TrimSpace (Message d) <> Message d -> d' <> d) /\
    (Severity d = "" -> LogSeverityUnknown <> "" -> d' <> d) /\
    (Timestamp d = 0 -> int64 (timeToUnixMilliseconds now) <> 0 -> d' <> d).
Proof.
  intros U L res ev; subst ev res; cbn [toLogEvent].
  assert (M : Message
                (if isEmpty (Severity d)
                 then mkLogData (Timestamp d) LogSeverityUnknown (Message d)
                 else d) = Message d)
    by (destruct (isEmpty (Severity d)); reflexivity).
  rewrite M; unfold MaxLogLength.
  destruct (Z.ltb_spec 32768 (len (Message d))) as [L' | _]; [lia |].
  eexists; split; [reflexivity |]; cbn [fst snd].
  destruct (isEmpty (Severity d)) eqn:Em; cbn;
    destruct (Z.eqb_spec (Timestamp d) 0) as [Tz | Tz]; cbn; rewrite ?U;
    (repeat split; try reflexivity;
     [ intros N E; apply N; rewrite <- E at 2; reflexivity
     | intros S N E; try (rewrite S in Em; discriminate Em);
       apply N; rewrite <- S, <- E; reflexivity
     | intros T N E; try (exfalso; exact (Tz T));
       apply N; rewrite <- T, <- E; reflexivity ]).
Qed.

(** On the oversized path the receiver has already been written to: an
    empty severity is replaced before the length is checked. *)
Lemma toLogEvent_oversized_keeps_the_default (d : LogData) (now : Time)
  (prio : priority) :
  32768 < len (Message d) -> Severity d = "" ->
  toLogEvent (Some d) now prio =
  (Some (mkLogData (Timestamp d) LogSeverityUnknown (Message d)),
   (logEvent_zero, Some errLogMessageTooLarge)).
Proof.
  intros L S; cbn [toLogEvent]; rewrite S; cbn [isEmpty Message].
  unfold MaxLogLength.
  destruct (Z.ltb_spec 32768 (len (Message d))); [reflexivity | lia].
Qed.

(** C8. With a field writer that honours its contract, the encoding of a log
    event is an object whose fields are, in this order: severity, message,
    span id when it is not empty, trace id when it is not empty, timestamp.
    The two ids are the only fields that may be absent. *)
Theorem WriteJSON_field_order (renderKey renderString : string -> string)
  (renderInt : Z -> string) (e : logEvent) (b : string) :
  writesFields renderKey renderString renderInt ->
  WriteJSON e b =
  b ++ "{"
    ++ renderKey LogSeverityFieldName ++ ":" ++ renderString (severity e)
    ++ "," ++ renderKey LogMessageFieldName ++ ":" ++ renderString (message e)
    ++ (if isEmpty (spanID e) then ""
        else "," ++ renderKey LogSpanIDFieldName ++ ":"
             ++ renderString (spanID e))
    ++ (if isEmpty (traceID e) then ""
        else "," ++ renderKey LogTraceIDFieldName ++ ":"
             ++ renderString (traceID e))
    ++ "," ++ renderKey LogTimestampFieldName ++ ":"
    ++ renderInt (timestamp e) ++ "}".
Proof.
  intros [S I]; unfold WriteJSON; cbv zeta.
  rewrite !len_positive.
  destruct (isEmpty (spanID e)); destruct (isEmpty (traceID e));
    cbn [negb]; unfold WriteByte, set_needsComma;
    rewrite ?S, ?I; cbn [buf needsComma];
    rewrite ?S, ?I; cbn [buf needsComma];
    rewrite ?S, ?I; cbn [buf needsComma];
    rewrite ?S, ?I; cbn [buf needsComma];
    rewrite ?append_assoc; cbn [append]; reflexivity.
Qed.

End Facts.

(** C9. When [EnrichLog] is given a buffer and a source that resolves to a
    connected application with logging and local decoration enabled: if
    entity GUID, host name and entity name are all non-empty it appends
    exactly [" NR-LINKING|"] and the pipe-terminated fields GUID, host, trace
    id, span id, name when trace id and span id are both non-empty, and GUID,
    host, name otherwise; if any of the three is empty it appends nothing.
    It returns nil in every case. An application source carries no trace
    context. *)
Theorem EnrichLog_appends_linking_metadata (b : string) (opts : enricherOption)
  (a : Application) (ap : app) (st : appRun) (md : TraceMetadata) :
  (opts = FromApp a /\ md = mkTraceMetadata "" "") \/
  (exists t, opts = FromTxn t /\ Transaction_Application t = a /\
             GetTraceMetadata t = md) ->
  Application_app a = Some ap ->
  getState ap = inl st ->
  ApplicationLogging_Enabled st = true ->
  LocalDecorating_Enabled st = true ->
  let G := Reply_EntityGUID st in
  let H := config_hostname ap in
  let N := config_AppName ap in
  let T := TraceID md in
  let S := SpanID md in
  EnrichLog (Some b) opts =
  (Some
     (if isEmpty G || isEmpty H || isEmpty N then b
      else if negb (isEmpty T) && negb (isEmpty S)
      then b ++ " NR-LINKING|" ++ G ++ "|" ++ H ++ "|" ++ T ++ "|" ++ S ++ "|"
             ++ N ++ "|"
      else b ++ " NR-LINKING|" ++ G ++ "|" ++ H ++ "|" ++ N ++ "|"),
   None).
Proof.
  intros Src A St L D G H N T S.
  assert (E : EnrichLog (Some b) opts =
              (Some (appendLinkingMetadata (mkLinkingMetadata T S G H N) b),
               None)).
  { unfold EnrichLog.
    destruct Src as [[-> ->] | (t & -> & At & Mt)]; cbn [FromApp FromTxn cfg_app cfg_txn].
    - rewrite A, St, L, D; reflexivity.
    - rewrite At, Mt, A, St, L, D; reflexivity. }
  rewrite E; unfold appendLinkingMetadata;
    cbn [md_traceID md_spanID md_entityGUID md_hostname md_entityName].
  destruct (isEmpty G); destruct (isEmpty H); destruct (isEmpty N);
    cbn [orb]; try reflexivity.
  destruct (negb (isEmpty T) && negb (isEmpty S)); cbv zeta;
    rewrite !append_assoc; reflexivity.
Qed.

(** *** The theorems at concrete log records *)

Lemma toLogEvent_validates_and_defaults_witness :
  TrimSpace (Collaborators := Demo.logCollaborators)
    (LogSeverityUnknown (Collaborators := Demo.logCollaborators)) =
  LogSeverityUnknown (Collaborators := Demo.logCollaborators) /\
  snd (toLogEvent (X := Demo.logCollaborators) (Some Demo.rawData) 5000000000 3) =
    (mkLogEvent 3 5000 "UNKNOWN" "hi" "" "", None) /\
  snd (snd (toLogEvent (X := Demo.logCollaborators)
              (Some (mkLogData 0 "" (Demo.filler (Z.to_nat 32769)))) 5000000000 3)) =
    Some errLogMessageTooLarge.
Proof.
  pose proof (toLogEvent_validates_and_defaults (X := Demo.logCollaborators)
                (Some (mkLogData 0 "" (Demo.filler (Z.to_nat 32769)))) 5000000000 3
                eq_refl) as H.
  cbv zeta in H.
  destruct H as (_ & [_ H] & _).
  split; [reflexivity |].
  split; [reflexivity |].
  apply H.
  exists (mkLogData 0 "" (Demo.filler (Z.to_nat 32769))).
  split; [reflexivity | vm_compute; reflexivity].
Defined.

Lemma toLogEvent_normalizes_its_input_in_place_witness :
  TrimSpace (Collaborators := Demo.logCollaborators)
    (LogSeverityUnknown (Collaborators := Demo.logCollaborators)) =
  LogSeverityUnknown (Collaborators := Demo.logCollaborators) /\
  len (Message Demo.rawData) <= 32768 /\
  fst (toLogEvent (X := Demo.logCollaborators) (Some Demo.rawData) 5000000000 3) =
    Some (mkLogData 5000 "UNKNOWN" "hi") /\
  fst (toLogEvent (X := Demo.logCollaborators) (Some Demo.rawData) 5000000000 3) <>
    Some Demo.rawData.
Proof.
  assert (L : len (Message Demo.rawData) <= 32768) by (vm_compute; discriminate).
  pose proof (toLogEvent_normalizes_its_input_in_place
                (X := Demo.logCollaborators) Demo.rawData 5000000000 3 eq_refl L)
    as H.
  cbv zeta in H.
  destruct H as (d' & E & _ & _ & _ & _ & _ & _ & _ & N & _).
  split; [reflexivity |].
  split; [exact L |].
  split; [reflexivity |].
  rewrite E; intros Q; injection Q as Q.
  apply N; [discriminate | exact Q].
Defined.

Lemma bracket_writer_honours_the_contract :
  writesFields (X := Demo.logCollaborators) Demo.bracket Demo.bracket Itoa.
Proof. split; intros w k v; reflexivity. Qed.

Lemma WriteJSON_field_order_witness :
  writesFields (X := Demo.logCollaborators) Demo.bracket Demo.bracket Itoa /\
  WriteJSON (X := Demo.logCollaborators) (mkLogEvent 1 17 "INFO" "hi" "" "T") "" =
  "{<level>:<INFO>,<message>:<hi>,<trace.id>:<T>,<timestamp>:17}".
Proof.
  split; [exact bracket_writer_honours_the_contract |].
  exact (WriteJSON_field_order (X := Demo.logCollaborators) Demo.bracket
           Demo.bracket Itoa (mkLogEvent 1 17 "INFO" "hi" "" "T") ""
           bracket_writer_honours_the_contract).
Defined.

Lemma EnrichLog_appends_linking_metadata_witness :
  EnrichLog (Some "line") (FromApp Demo.linkedApplication) =
    (Some "line NR-LINKING|G|H|N|", None) /\
  EnrichLog (Some "line") (FromTxn Demo.linkedTransaction) =
    (Some "line NR-LINKING|G|H|T|S|N|", None).
Proof.
  split.
  - exact (EnrichLog_appends_linking_metadata "line" (FromApp Demo.linkedApplication)
             Demo.linkedApplication Demo.linkedApp (mkAppRun "G" true true)
             (mkTraceMetadata "" "") (or_introl (conj eq_refl eq_refl))
             eq_refl eq_refl eq_refl eq_refl).
  - exact (EnrichLog_appends_linking_metadata "line"
             (FromTxn Demo.linkedTransaction) Demo.linkedApplication Demo.linkedApp
             (mkAppRun "G" true true) (mkTraceMetadata "T" "S")
             (or_intror
                (ex_intro _ Demo.linkedTransaction
                   (conj eq_refl (conj eq_refl eq_refl))))
             eq_refl eq_refl eq_refl eq_refl).
Defined.

(** Only the empty severity is replaced by the sentinel: a severity of white
    space alone is trimmed to the empty string. *)
Lemma toLogEvent_whitespace_severity :
  severity
    (fst (snd (toLogEvent (X := Demo.logCollaborators)
                 (Some (mkLogData 7 " " "hi")) 5000000000 3))) = "".
Proof. reflexivity. Qed.

(** A buffer is required, and so is a source with a connected application. *)
Lemma EnrichLog_failures (b : string) (opts : enricherOption) :
  EnrichLog None opts = (None, Some errNilLogBuffer) /\
  EnrichLog (Some b) (fun cfg => cfg) = (Some b, Some errNoApplication) /\
  EnrichLog (Some b) (FromApp (mkApplication None)) =
    (Some b, Some errNoApplication).
Proof. repeat split; reflexivity. Qed.

End LogFacts.

(** * Further properties of [internal/txn] *)

Module TxnMoreFacts.
Import Go Txn Harvest Vocabulary TxnFacts.

Section Facts.
Context {X : Txn.Collaborators}.

(** *** Helpers *)

Lemma headersJustWritten_cases (h : http_Header) (code : Z) (now : Time)
  (t : txn) :
  headersJustWritten h code now t = t \/
  (finished t = false /\ wroteHeader t = false /\
   headersJustWritten h code now t =
   if responseCodeIsError (Config t) code then
     fst (noticeErrorInternal
            (txnError_set_stack (getStackTrace 1) (txnErrorFromResponseCode code))
            now (captured h code t))
   else captured h code t).
Proof.
  destruct (finished t) eqn:F.
  { left; apply headersJustWritten_finished; exact F. }
  destruct (wroteHeader t) eqn:W.
  { left; apply headersJustWritten_wroteHeader; exact W. }
  right; split; [reflexivity |]; split; [reflexivity |].
  apply headersJustWritten_first; assumption.
Qed.

(** What a header capture keeps of the record. *)
Lemma headersJustWritten_keeps (h : http_Header) (code : Z) (now : Time)
  (t : txn) :
  let t' := headersJustWritten h code now t in
  Request t' = Request t /\ Config t' = Config t /\ Reply t' = Reply t /\
  isWeb t' = isWeb t /\ start t' = start t /\ queuing t' = queuing t /\
  finished t' = finished t /\ name t' = name t /\ ignore t' = ignore t /\
  finalName t' = finalName t /\
  (wroteHeader t = true -> wroteHeader t' = true).
Proof.
  cbv zeta.
  destruct (headersJustWritten_cases h code now t) as [-> | (F & W & ->)].
  { repeat split; auto. }
  destruct (responseCodeIsError (Config t) code).
  - destruct (noticeErrorInternal_frame
                (txnError_set_stack (getStackTrace 1)
                   (txnErrorFromResponseCode code)) now (captured h code t))
      as (-> & -> & -> & -> & -> & -> & -> & -> & -> & _ & -> & _ & _ & -> & _).
    repeat split; reflexivity.
  - repeat split; reflexivity.
Qed.

Lemma finalized_keeps (r : option any) (nowErr nowStop : Time) (t : txn) :
  let t1 := finalized r nowErr nowStop t in
  Request t1 = Request t /\ start t1 = start t /\ queuing t1 = queuing t /\
  wroteHeader t1 = wroteHeader t /\ name t1 = name t /\ attrs t1 = attrs t.
Proof.
  cbv zeta; unfold finalized, classified, getsApdex, freezeName, stopped,
    recovered.
  destruct r as [v |].
  - destruct (noticeErrorInternal_frame
                (txnError_set_stack (getStackTrace 0) (txnErrorFromPanic v))
                nowErr (set_finished true t))
      as (R & _ & _ & _ & Q & S & N & _ & _ & A & W & _).
    cbv zeta in R, Q, S, N, A, W; cbn in R, Q, S, N, A, W.
    repeat break_if; cbn; rewrite ?R, ?Q, ?S, ?N, ?A, ?W;
      repeat split; reflexivity.
  - repeat break_if; cbn; repeat split; reflexivity.
Qed.

(** One call: the fields that are the transaction's input, and the two
    flags that only ever rise. *)
Lemma step_keeps (c : call) (w : world) :
  let t' := tx (fst (step c w)) in
  Request t' = Request (tx w) /\ Config t' = Config (tx w) /\
  Reply t' = Reply (tx w) /\ isWeb t' = isWeb (tx w) /\
  start t' = start (tx w) /\ queuing t' = queuing (tx w) /\
  (finished (tx w) = true -> finished t' = true) /\
  (wroteHeader (tx w) = true -> wroteHeader t' = true).
Proof.
  cbv zeta.
  destruct c as [nm | nm value | err now | r nowErr nowStop | b now | code now];
    cbn [step].
  - unfold txn_SetName; destruct (finished (tx w)) eqn:F; cbn;
      repeat split; auto; intros; congruence.
  - unfold txn_AddAttribute; destruct (finished (tx w)) eqn:F; cbn;
      [repeat split; auto; intros; congruence |].
    destruct (addUserAttribute (attrs (tx w)) nm value destAll); cbn;
      repeat split; auto; intros; congruence.
  - unfold txn_NoticeError; destruct (finished (tx w)) eqn:F; cbn;
      [repeat split; auto; intros; congruence |].
    destruct err as [err |]; cbn; [| repeat split; auto; intros; congruence].
    destruct (noticeErrorInternal _ now (tx w)) as [t res] eqn:E; cbn.
    change t with (fst (t, res)); rewrite <- E.
    destruct (noticeErrorInternal_frame
                (txnError_set_stack (getStackTrace 1) (txnErrorFromError err))
                now (tx w))
      as (-> & -> & -> & -> & -> & -> & _ & -> & _ & _ & -> & _).
    repeat split; auto; intros; congruence.
  - destruct (finished (tx w)) eqn:F.
    + rewrite txn_End_finished by exact F; cbn; repeat split; auto; intros; congruence.
    + rewrite txn_End_unfinished by exact F; cbn [fst tx].
      destruct (finalized_frame r nowErr nowStop (tx w)) as (-> & -> & -> & _).
      destruct (finalized_keeps r nowErr nowStop (tx w))
        as (-> & -> & -> & -> & _).
      rewrite finalized_finished.
      repeat split; auto; intros; congruence.
  - unfold txn_Write, Writer_Write.
    destruct (Writer_Write_result (Writer w) b) as [n e]; cbn [fst tx].
    destruct (headersJustWritten_keeps
                (Writer_Header
                   (mkWriter (Writer_Header (Writer w))
                      (Writer_calls (Writer w) ++ [sinkWrite b])%list))
                StatusOK now (tx w))
      as (-> & -> & -> & -> & -> & -> & -> & _ & _ & _ & K).
    repeat split; auto; intros; congruence.
  - unfold txn_WriteHeader; cbn [fst tx].
    destruct (headersJustWritten_keeps
                (Writer_Header (Writer_WriteHeader (Writer w) code))
                code now (tx w))
      as (-> & -> & -> & -> & -> & -> & -> & _ & _ & _ & K).
    repeat split; auto; intros; congruence.
Qed.

(** X1. A response status is an error status exactly when it is at least
    400 and is not one of the configured ignored codes. *)
Theorem error_status_iff (cfg : api_Config) (code : Z) :
  responseCodeIsError cfg code = true <->
  400 <= code /\
  ~ In code (ErrorCollector_IgnoreStatusCodes (ErrorCollector cfg)).
Proof. apply responseCodeIsError_spec. Qed.

(** X2. The first header capture on a live transaction records the status
    as its decimal string, for every code: the codes of the lookup table and
    the codes outside it alike. *)
Theorem first_header_records_decimal_status (h : http_Header) (code : Z)
  (now : Time) (t : txn) :
  finished t = false ->
  wroteHeader t = false ->
  ResponseCode (agent (attrs (headersJustWritten h code now t))) = Itoa code /\
  wroteHeader (headersJustWritten h code now t) = true.
Proof.
  intros F W; rewrite headersJustWritten_first by assumption.
  destruct (responseCodeIsError (Config t) code).
  - rewrite noticeErrorInternal_attrs, noticeErrorInternal_wroteHeader.
    split; reflexivity.
  - split; reflexivity.
Qed.

(** X3. [Write] never counts or stores an error, and once it has run no
    later [Write] or [WriteHeader] does either, whatever status is written:
    the implicit 200 of the first body write uses up the one header
    capture. *)
Theorem Write_masks_later_error_statuses (w : world) (b : string) (now : Time)
  (cs : list call) :
  forallb isHeaderWrite cs = true ->
  let w' := fst (run (callWrite b now :: cs) w) in
  errorsSeen (tx w') = errorsSeen (tx w) /\
  errors (tx w') = errors (tx w) /\
  finished (tx w') = finished (tx w).
Proof.
  intros A w'; subst w'.
  assert (K : forall cs w0, forallb isHeaderWrite cs = true ->
                (finished (tx w0) = true \/ wroteHeader (tx w0) = true) ->
                tx (fst (run cs w0)) = tx w0).
  { clear; induction cs as [| c cs IH]; intros w0 A Q; [reflexivity |].
    cbn [forallb] in A; apply andb_true_iff in A; destruct A as [A1 A2].
    rewrite run_cons; cbn [fst].
    assert (S : tx (fst (step c w0)) = tx w0).
    { destruct c; try discriminate A1; cbn [step].
      - unfold txn_Write, Writer_Write.
        destruct (Writer_Write_result (Writer w0) b); cbn [fst tx].
        destruct Q as [Q | Q];
          [apply headersJustWritten_finished | apply headersJustWritten_wroteHeader];
          exact Q.
      - unfold txn_WriteHeader; cbn [fst tx].
        destruct Q as [Q | Q];
          [apply headersJustWritten_finished | apply headersJustWritten_wroteHeader];
          exact Q. }
    rewrite IH; [exact S | exact A2 | rewrite S; exact Q]. }
  rewrite run_cons; cbn [fst step].
  set (w1 := fst (txn_Write b now w)).
  assert (W1 : tx w1 = tx w \/
               (finished (tx w) = false /\
                tx w1 = captured (Writer_Header (Writer w)) StatusOK (tx w))).
  { subst w1; unfold txn_Write, Writer_Write.
    destruct (Writer_Write_result (Writer w) b); cbn [fst tx Writer_Header].
    destruct (headersJustWritten_cases (Writer_Header (Writer w)) StatusOK now
                (tx w)) as [E | (F & _ & E)]; [left; exact E |].
    right; split; [exact F |].
    rewrite E.
    replace (responseCodeIsError (Config (tx w)) StatusOK) with false;
      [reflexivity |].
    unfold responseCodeIsError, StatusOK, StatusBadRequest; reflexivity. }
  destruct W1 as [E | [F E]].
  - destruct (finished (tx w)) eqn:F.
    + rewrite K; [rewrite E, F; auto | exact A | left; rewrite E; exact F].
    + (* unfinished and unchanged: the header had been written before *)
      assert (H1 : wroteHeader (tx w) = true).
      { subst w1; unfold txn_Write, Writer_Write in E.
        destruct (Writer_Write_result (Writer w) b); cbn [fst tx Writer_Header] in E.
        destruct (wroteHeader (tx w)) eqn:W; [reflexivity |].
        rewrite headersJustWritten_first in E by assumption.
        replace (responseCodeIsError (Config (tx w)) StatusOK) with false in E
          by (unfold responseCodeIsError, StatusOK, StatusBadRequest; reflexivity).
        apply (f_equal wroteHeader) in E; cbn in E; rewrite W in E.
        discriminate E. }
      rewrite K; [rewrite E, F; auto | exact A | right; rewrite E; exact H1].
  - rewrite K; [rewrite E; cbn; auto | exact A | right; rewrite E; reflexivity].
Qed.

(** X4. No call, and no sequence of calls, changes what the transaction was
    created from: its request, configuration, connect reply, web
    classification, start time and queueing duration. *)
Theorem calls_never_change_the_input (cs : list call) (w : world) :
  let t' := tx (fst (run cs w)) in
  Request t' = Request (tx w) /\ Config t' = Config (tx w) /\
  Reply t' = Reply (tx w) /\ isWeb t' = isWeb (tx w) /\
  start t' = start (tx w) /\ queuing t' = queuing (tx w).
Proof.
  cbv zeta; revert w; induction cs as [| c cs IH]; intros w.
  - repeat split; reflexivity.
  - rewrite run_cons; cbn [fst].
    destruct (IH (fst (step c w))) as (-> & -> & -> & -> & -> & ->).
    destruct (step_keeps c w) as (-> & -> & -> & -> & -> & -> & _).
    repeat split; reflexivity.
Qed.

(** X5. [finished] and [wroteHeader] only ever rise: once a transaction has
    ended, or has written its header, it stays so through every later
    call. *)
Theorem flags_never_reset (cs : list call) (w : world) :
  (finished (tx w) = true -> finished (tx (fst (run cs w))) = true) /\
  (wroteHeader (tx w) = true -> wroteHeader (tx (fst (run cs w))) = true).
Proof.
  revert w; induction cs as [| c cs IH]; intros w; [split; auto |].
  rewrite run_cons; cbn [fst].
  destruct (IH (fst (step c w))) as [F W].
  destruct (step_keeps c w) as (_ & _ & _ & _ & _ & _ & F0 & W0).
  split; auto.
Qed.

Lemma freezeName_cases (t : txn) :
  freezeName (freezeName t) = freezeName t /\
  (isEmpty (finalName t) = false -> freezeName t = t) /\
  (ignore (freezeName t) = false -> isEmpty (finalName (freezeName t)) = false).
Proof.
  unfold freezeName.
  destruct (ignore t) eqn:I; cbn [orb].
  { rewrite I; cbn [orb]; repeat split; auto; intros; discriminate. }
  destruct (isEmpty (finalName t)) eqn:E; cbn [negb].
  2: { rewrite I, E; cbn; repeat split; auto. }
  cbn [finalName set_finalName].
  destruct (isEmpty (CreateFullTxnName (name t) (Reply t) (isWeb t))) eqn:C;
    cbn; rewrite ?I, ?C; cbn; repeat split; auto; intros; discriminate.
Qed.

(** X6. Freezing the name is idempotent; a final name that is set is never
    replaced; and a record that is not ignored after the freeze has a
    non-empty final name. *)
Theorem freezeName_settles (t : txn) :
  freezeName (freezeName t) = freezeName t /\
  (isEmpty (finalName t) = false -> freezeName t = t) /\
  (ignore (freezeName t) = false -> isEmpty (finalName (freezeName t)) = false).
Proof. apply freezeName_cases. Qed.

Lemma freezeName_fresh (t : txn) :
  ignore t = false -> isEmpty (finalName t) = true ->
  finalName (freezeName t) = CreateFullTxnName (name t) (Reply t) (isWeb t) /\
  ignore (freezeName t) =
    isEmpty (CreateFullTxnName (name t) (Reply t) (isWeb t)) /\
  name (freezeName t) = name t.
Proof.
  intros I E; unfold freezeName; rewrite I, E; cbn.
  destruct (isEmpty (CreateFullTxnName (name t) (Reply t) (isWeb t))) eqn:C;
    cbn; rewrite ?I; auto.
Qed.

Lemma classified_keeps (t : txn) :
  name (classified t) = name t /\ attrs (classified t) = attrs t.
Proof.
  unfold classified, getsApdex; repeat break_if; cbn; split; reflexivity.
Qed.

(** The part of the record [End] freezes the name on. *)
Lemma finalized_named (r : option any) (nowErr nowStop : Time) (t : txn) :
  let t0 := stopped nowStop (recovered r nowErr (set_finished true t)) in
  ignore (finalized r nowErr nowStop t) = ignore (freezeName t0) /\
  finalName (finalized r nowErr nowStop t) = finalName (freezeName t0) /\
  name (finalized r nowErr nowStop t) = name (freezeName t0) /\
  ignore t0 = ignore t /\ finalName t0 = finalName t /\ name t0 = name t /\
  Reply t0 = Reply t /\ isWeb t0 = isWeb t.
Proof.
  cbv zeta; unfold finalized.
  destruct (classified_frame
              (freezeName (stopped nowStop (recovered r nowErr (set_finished true t)))))
    as (_ & _ & _ & _ & _ & _ & _ & -> & ->).
  destruct (classified_keeps
              (freezeName (stopped nowStop (recovered r nowErr (set_finished true t)))))
    as (-> & _).
  unfold stopped, recovered; destruct r as [v |]; cbn.
  - destruct (noticeErrorInternal_frame
                (txnError_set_stack (getStackTrace 0) (txnErrorFromPanic v))
                nowErr (set_finished true t))
      as (_ & _ & -> & _ & _ & _ & -> & -> & -> & _ & _ & _ & _ & -> & _).
    repeat split; reflexivity.
  - repeat split; reflexivity.
Qed.

Lemma step_finished_id (c : call) (w : world) :
  finished (tx w) = true ->
  tx (fst (step c w)) = tx w /\ Consumer (fst (step c w)) = Consumer w.
Proof.
  intros H.
  destruct c as [nm | nm value | err now | r nowErr nowStop | b now | code now];
    cbn [step].
  - unfold txn_SetName; rewrite H; cbn; auto.
  - unfold txn_AddAttribute; rewrite H; cbn; auto.
  - unfold txn_NoticeError; rewrite H; cbn; auto.
  - rewrite txn_End_finished by exact H; cbn; auto.
  - unfold txn_Write, Writer_Write.
    destruct (Writer_Write_result (Writer w) b) as [n e]; cbn.
    rewrite headersJustWritten_finished by exact H; auto.
  - unfold txn_WriteHeader; cbn.
    rewrite headersJustWritten_finished by exact H; auto.
Qed.

Lemma run_finished_id (cs : list call) (w : world) :
  finished (tx w) = true ->
  tx (fst (run cs w)) = tx w /\ Consumer (fst (run cs w)) = Consumer w.
Proof.
  revert w; induction cs as [| c cs IH]; intros w H; [auto |].
  rewrite run_cons; cbn [fst].
  destruct (step_finished_id c w H) as [T C].
  destruct (IH (fst (step c w))) as [T' C']; [rewrite T; exact H |].
  rewrite T', C', T, C; auto.
Qed.

(** A call other than [End] on a live transaction leaves it live and does
    not reach the consumer. *)
Lemma step_live (c : call) (w : world) :
  finished (tx w) = false ->
  match c with callEnd _ _ _ => False | _ => True end ->
  finished (tx (fst (step c w))) = false /\
  Consumer (fst (step c w)) = Consumer w.
Proof.
  intros F N.
  destruct c as [nm | nm value | err now | r nowErr nowStop | b now | code now];
    cbn [step]; try contradiction.
  - unfold txn_SetName; rewrite F; cbn; auto.
  - unfold txn_AddAttribute; rewrite F.
    destruct (addUserAttribute (attrs (tx w)) nm value destAll); cbn; auto.
  - unfold txn_NoticeError; rewrite F.
    destruct err as [err |]; cbn; [| auto].
    destruct (noticeErrorInternal _ now (tx w)) as [t res] eqn:E; cbn.
    change t with (fst (t, res)); rewrite <- E, noticeErrorInternal_finished.
    auto.
  - unfold txn_Write, Writer_Write.
    destruct (Writer_Write_result (Writer w) b) as [n e]; cbn [fst tx Consumer].
    destruct (headersJustWritten_keeps
                (Writer_Header
                   (mkWriter (Writer_Header (Writer w))
                      (Writer_calls (Writer w) ++ [sinkWrite b])%list))
                StatusOK now (tx w))
      as (_ & _ & _ & _ & _ & _ & -> & _).
    auto.
  - unfold txn_WriteHeader; cbn [fst tx Consumer].
    destruct (headersJustWritten_keeps
                (Writer_Header (Writer_WriteHeader (Writer w) code))
                code now (tx w))
      as (_ & _ & _ & _ & _ & _ & -> & _).
    auto.
Qed.

(** X7. Whatever calls are made on a live transaction, in whatever order,
    the consumer has received nothing while the transaction is live; once it
    has ended the consumer has received nothing if the transaction is
    ignored, and otherwise exactly one record: the final record itself, with
    a non-empty final name, under the run id of the connect reply. *)
Theorem consumer_gets_the_final_record_once (cs : list call) (w : world) :
  finished (tx w) = false ->
  let w' := fst (run cs w) in
  (finished (tx w') = false /\ Consumer w' = Consumer w) \/
  (finished (tx w') = true /\
   ((ignore (tx w') = true /\ Consumer w' = Consumer w) \/
    (ignore (tx w') = false /\ isEmpty (finalName (tx w')) = false /\
     Consumer w' = (Consumer w ++ [(RunID (Reply (tx w)), tx w')])%list))).
Proof.
  cbv zeta; revert w; induction cs as [| c cs IH]; intros w F.
  { left; auto. }
  rewrite run_cons; cbn [fst].
  destruct c as [nm | nm value | err now | r nowErr nowStop | b now | code now].
  4: {
    pose proof (txn_End_unfinished r nowErr nowStop w F) as E; cbv zeta in E.
    cbn [step]; rewrite E; cbn [fst].
    set (t1 := finalized r nowErr nowStop (tx w)) in *.
    set (w1 := mkWorld t1 (Writer w)
                 (if ignore t1 then Consumer w
                  else (Consumer w ++ [(RunID (Reply t1), t1)])%list)).
    assert (F1 : finished (tx w1) = true) by apply finalized_finished.
    destruct (run_finished_id cs w1 F1) as [T C]; rewrite T, C; cbn [tx Consumer].
    right; split; [exact F1 |].
    destruct (ignore t1) eqn:I; [left; auto | right].
    split; [exact I |].
    destruct (finalized_named r nowErr nowStop (tx w)) as (I1 & N1 & _).
    cbv zeta in I1, N1; fold t1 in I1, N1.
    destruct (finalized_frame r nowErr nowStop (tx w)) as (_ & R & _).
    cbv zeta in R; fold t1 in R.
    subst w1; cbn [tx Consumer]; split; [| rewrite R; reflexivity].
    rewrite N1; apply freezeName_cases; rewrite <- I1; exact I. }
  all: match goal with
       | F0 : finished (tx ?w0) = false |- context [step ?c ?w0] =>
           destruct (step_live c w0 F0 I) as [F1 C1];
           destruct (step_keeps c w0) as (_ & _ & R1 & _);
           cbv zeta in R1;
           specialize (IH (fst (step c w0)) F1);
           rewrite C1, R1 in IH; exact IH
       end.
Qed.

(** X8. [SetName] followed by [End], on a live transaction that is not
    ignored and has no final name yet: the name frozen is the full name of
    the name just set; the transaction is ignored exactly when that full
    name is empty, and the consumer receives the record exactly when it is
    not. *)
Theorem End_freezes_the_last_name (w : world) (nm : string) (r : option any)
  (nowErr nowStop : Time) :
  finished (tx w) = false ->
  ignore (tx w) = false ->
  isEmpty (finalName (tx w)) = true ->
  let w1 := fst (txn_End r nowErr nowStop (fst (txn_SetName nm w))) in
  let full := CreateFullTxnName nm (Reply (tx w)) (isWeb (tx w)) in
  name (tx w1) = nm /\
  finalName (tx w1) = full /\
  ignore (tx w1) = isEmpty full /\
  Consumer w1 =
    (if isEmpty full then Consumer w
     else (Consumer w ++ [(RunID (Reply (tx w)), tx w1)])%list).
Proof.
  intros F I E w1 full; subst w1.
  assert (S : fst (txn_SetName nm w) =
              mkWorld (set_name nm (tx w)) (Writer w) (Consumer w)).
  { unfold txn_SetName; rewrite F; reflexivity. }
  rewrite S.
  pose proof (txn_End_unfinished r nowErr nowStop
                (mkWorld (set_name nm (tx w)) (Writer w) (Consumer w)) F) as Q.
  cbv zeta in Q; rewrite Q; cbn [fst tx Consumer Writer]; clear Q.
  set (t1 := finalized r nowErr nowStop (set_name nm (tx w))).
  destruct (finalized_named r nowErr nowStop (set_name nm (tx w)))
    as (I1 & N1 & M1 & I0 & N0 & M0 & R0 & W0).
  cbv zeta in I1, N1, M1, I0, N0, M0, R0, W0; fold t1 in I1, N1, M1.
  destruct (freezeName_fresh
              (stopped nowStop
                 (recovered r nowErr (set_finished true (set_name nm (tx w))))))
    as (A & B & C).
  { rewrite I0; exact I. }
  { rewrite N0; exact E. }
  rewrite M0, R0, W0 in A, B; cbn [name Reply isWeb set_name] in A, B.
  rewrite M0 in C; cbn [name set_name] in C.
  fold full in A, B.
  destruct (finalized_frame r nowErr nowStop (set_name nm (tx w)))
    as (_ & R & _).
  cbv zeta in R; fold t1 in R; cbn [Reply set_name] in R.
  rewrite M1, N1, I1, A, B, C, R.
  repeat split; reflexivity.
Qed.

(** X9. A web transaction that ends while a panic is in flight is classified
    failing, whatever its duration: the recovered panic is counted before
    the zone is chosen; and [End] panics again with the recovered value
    after the record has been finalized. *)
Theorem panicking_web_transaction_fails (w : world) (v : any)
  (nowErr nowStop : Time) :
  finished (tx w) = false ->
  isWeb (tx w) = true ->
  0 <= errorsSeen (tx w) < 2 ^ 64 - 1 ->
  let res := txn_End (Some v) nowErr nowStop w in
  snd res = Panic v /\
  finished (tx (fst res)) = true /\
  errorsSeen (tx (fst res)) = errorsSeen (tx w) + 1 /\
  zone (tx (fst res)) = apdexFailing.
Proof.
  intros F W B res; subst res.
  rewrite (txn_End_unfinished (Some v) nowErr nowStop w F); cbn [fst snd tx].
  assert (S0 : errorsSeen
                 (freezeName
                    (stopped nowStop
                       (recovered (Some v) nowErr (set_finished true (tx w))))) =
               errorsSeen (tx w) + 1).
  { rewrite freezeName_errorsSeen; unfold stopped.
    change (errorsSeen (set_duration ?d (set_stop ?s ?t))) with (errorsSeen t).
    rewrite recovered_errorsSeen.
    unfold uint64; apply Z.mod_small; lia. }
  assert (W0 : isWeb
                 (freezeName
                    (stopped nowStop
                       (recovered (Some v) nowErr (set_finished true (tx w))))) =
               true).
  { rewrite freezeName_isWeb; unfold stopped.
    change (isWeb (set_duration ?d (set_stop ?s ?t))) with (isWeb t).
    unfold recovered; rewrite noticeErrorInternal_isWeb; exact W. }
  split; [reflexivity |].
  split; [apply finalized_finished |].
  unfold finalized.
  destruct (classified_frame
              (freezeName
                 (stopped nowStop
                    (recovered (Some v) nowErr (set_finished true (tx w))))))
    as (_ & _ & _ & _ & _ & -> & _).
  destruct (classified_zone
              (freezeName
                 (stopped nowStop
                    (recovered (Some v) nowErr (set_finished true (tx w))))))
    as (_ & ZF & _).
  split; [exact S0 |].
  apply ZF; [exact W0 | rewrite S0; lia].
Qed.

Lemma run_notices (cs : list call) (w : world) :
  forallb isNotice cs = true ->
  finished (tx w) = false ->
  0 <= errorsSeen (tx w) < 2 ^ 64 ->
  let res := run cs w in
  errorsSeen (tx (fst res)) = uint64 (errorsSeen (tx w) + noticed cs) /\
  finished (tx (fst res)) = false /\
  Forall2 noticeOutcome cs (snd res).
Proof.
  cbv zeta; revert w; induction cs as [| c cs IH]; intros w A F B.
  { cbn [run fst snd noticed].
    split; [| split; [exact F | constructor]].
    unfold uint64; rewrite Z.add_0_r, Z.mod_small; [reflexivity | lia]. }
  cbn [forallb] in A; apply andb_true_iff in A; destruct A as [A1 A2].
  destruct c as [| | err now | | |]; try discriminate A1.
  rewrite run_cons; cbn [fst snd step].
  destruct err as [err |].
  - assert (E : txn_NoticeError (Some err) now w =
                (mkWorld
                   (fst (noticeErrorInternal
                           (txnError_set_stack (getStackTrace 1)
                              (txnErrorFromError err)) now (tx w)))
                   (Writer w) (Consumer w),
                 Return
                   (snd (noticeErrorInternal
                           (txnError_set_stack (getStackTrace 1)
                              (txnErrorFromError err)) now (tx w))))).
    { unfold txn_NoticeError; rewrite F.
      destruct (noticeErrorInternal _ now (tx w)); reflexivity. }
    rewrite E; cbn [fst snd].
    set (e := txnError_set_stack (getStackTrace 1) (txnErrorFromError err)) in *.
    set (w1 := mkWorld (fst (noticeErrorInternal e now (tx w))) (Writer w)
                 (Consumer w)).
    assert (S1 : errorsSeen (tx w1) = uint64 (errorsSeen (tx w) + 1))
      by apply noticeErrorInternal_errorsSeen.
    assert (F1 : finished (tx w1) = false).
    { cbn [tx w1]; rewrite noticeErrorInternal_finished; exact F. }
    assert (B1 : 0 <= errorsSeen (tx w1) < 2 ^ 64).
    { rewrite S1; unfold uint64; apply Z.mod_pos_bound; lia. }
    destruct (IH w1 A2 F1 B1) as (S & G & O).
    split.
    { rewrite S, S1; unfold uint64; cbn [noticed].
      rewrite Z.add_mod_idemp_l by lia.
      f_equal; lia. }
    split; [exact G |].
    constructor; [| exact O].
    cbn [noticeOutcome].
    destruct (noticeErrorInternal_cases e now (tx w)) as (L & M & K).
    cbv zeta in L, M, K.
    destruct (ErrorCollector_Enabled (ErrorCollector (Config (tx w)))).
    + destruct (CollectErrors (Reply (tx w))).
      * destruct (K eq_refl eq_refl) as [-> _]; auto.
      * destruct (M eq_refl eq_refl) as [-> _]; auto.
    + destruct (L eq_refl) as [-> _]; auto.
  - assert (E : txn_NoticeError None now w = (w, Return (Some ErrNilError))).
    { unfold txn_NoticeError; rewrite F; reflexivity. }
    rewrite E; cbn [fst snd].
    destruct (IH w A2 F B) as (S & G & O).
    split; [exact S |]. split; [exact G |].
    constructor; [reflexivity | exact O].
Qed.

(** X10. Over any sequence of [NoticeError] calls on a live transaction the
    error counter rises by the number of non-nil errors handed in, modulo
    2^64, whatever the gates say; a nil error returns [ErrNilError] and is
    not counted; the transaction stays live. *)
Theorem errorsSeen_counts_noticed_errors (cs : list call) (w : world) :
  forallb isNotice cs = true ->
  finished (tx w) = false ->
  0 <= errorsSeen (tx w) < 2 ^ 64 ->
  let res := run cs w in
  errorsSeen (tx (fst res)) = uint64 (errorsSeen (tx w) + noticed cs) /\
  finished (tx (fst res)) = false /\
  Forall2 noticeOutcome cs (snd res).
Proof. apply run_notices. Qed.

End Facts.

(** *** The merge into the harvest *)

Section HarvestFacts.
Context {X : Txn.Collaborators} {H : Harvest.Collaborators}.

Lemma errorEventsOf_app (h h' : harvest) :
  errorEventsOf (h ++ h')%list = (errorEventsOf h ++ errorEventsOf h')%list.
Proof. apply flat_map_app. Qed.

Lemma errorEventsOf_events (t : txn) (l : list txnError) :
  errorEventsOf (map (fun e => errorEvents_Add (eventOf t e)) l) =
  map (eventOf t) l.
Proof.
  induction l as [| e l IH]; [reflexivity |].
  cbn [map errorEventsOf flat_map app]; f_equal; exact IH.
Qed.

Lemma errorEventsOf_merge (t : txn) (h : harvest) :
  errorEventsOf (mergeIntoHarvest t h) =
  (errorEventsOf h ++
   (if errorEventsEnabled t then map (eventOf t) (stored t) else []))%list.
Proof.
  unfold mergeIntoHarvest; cbv zeta.
  change (fun e => errorEvents_Add
                     (mkErrorEvent (klass e) (msg e) (when e) (finalName t)
                        (duration t) (queuing t) (attrs t)))
    with (fun e => errorEvents_Add (eventOf t e)).
  destruct (0 <? queuing t); destruct (txnEventsEnabled t);
    destruct (errorEventsEnabled t);
    rewrite ?errorEventsOf_app, ?errorEventsOf_events; cbn [errorEventsOf flat_map];
    rewrite ?app_nil_r; reflexivity.
Qed.



(** X13. With high-security mode on, and a bounded store that holds only
    what it is given, every error event that a merge of the transaction
    adds to an empty harvest carries the redaction string as its message,
    whatever calls were made on the transaction since [newTxn]. *)
Theorem high_security_error_events_are_redacted (input : txnInput)
  (nm : string) (now : Time) (rw : ResponseWriter) (c : dataConsumer)
  (cs : list call) (ev : errorEvent) :
  storeKeepsWhatItIsGiven ->
  HighSecurity (input_Config input) = true ->
  In ev (errorEventsOf
           (mergeIntoHarvest
              (tx (fst (run cs (mkWorld (newTxn input nm now) rw c)))) [])) ->
  errorEvent_msg ev = HighSecurityErrorMsg.
Proof.
  intros S HS I.
  destruct (newTxn_fresh input nm now) as (C & _ & _ & E & _).
  cbv zeta in C, E.
  assert (R : redacted (tx (fst (run cs (mkWorld (newTxn input nm now) rw c))))).
  { apply run_redacted; cbn [tx].
    - exact S.
    - rewrite C; exact HS.
    - unfold redacted, stored; rewrite E; constructor. }
  rewrite errorEventsOf_merge in I; cbn [errorEventsOf flat_map app] in I.
  destruct (errorEventsEnabled _); [| destruct I].
  apply in_map_iff in I; destruct I as (e & <- & I).
  unfold redacted in R; rewrite Forall_forall in R.
  exact (R e I).
Qed.

(** X14. With error capture off (locally or remotely), errors handed to
    [NoticeError] on a new transaction are still counted, and the count is
    what a merge reports in the summary metrics; but the merge hands over a
    nil error collection and adds no error event. *)
Theorem disabled_capture_reports_the_count_only (input : txnInput)
  (nm : string) (now : Time) (rw : ResponseWriter) (c : dataConsumer)
  (cs : list call) :
  ErrorCollector_Enabled (ErrorCollector (input_Config input))
  && CollectErrors (input_Reply input) = false ->
  forallb isNotice cs = true ->
  let t := tx (fst (run cs (mkWorld (newTxn input nm now) rw c))) in
  errorsSeen t = uint64 (noticed cs) /\
  errors t = None /\
  errorEventsOf (mergeIntoHarvest t []) = [] /\
  hd_error (mergeIntoHarvest t []) =
    Some (createTxnMetrics
            (mkMetricsArgs (isWeb t) (duration t) (finalName t) (zone t)
               (apdexThreshold t) (uint64 (noticed cs)))).
Proof.
  intros G A t.
  destruct (newTxn_fresh input nm now) as (_ & _ & F & _ & S & _).
  cbv zeta in F, S.
  destruct (run_notices cs (mkWorld (newTxn input nm now) rw c) A F)
    as (S1 & _).
  { cbn [tx]; rewrite S; lia. }
  cbn [tx] in S1; rewrite S, Z.add_0_l in S1; fold t in S1.
  pose proof (nothing_stored_while_a_gate_is_off input nm now rw c cs G) as N.
  fold t in N.
  split; [exact S1 |]. split; [exact N |].
  split.
  - rewrite errorEventsOf_merge; unfold stored; rewrite N.
    destruct (errorEventsEnabled t); reflexivity.
  - rewrite <- S1.
    unfold mergeIntoHarvest; cbv zeta.
    destruct (0 <? queuing t); destruct (txnEventsEnabled t);
      destruct (errorEventsEnabled t); reflexivity.
Qed.

End HarvestFacts.

(** *** The further properties at concrete transactions *)

Lemma flags_never_reset_witness :
  finished (tx Demo.endedWorld) = true /\
  finished (tx (fst (run (X := Demo.txnCollaborators) Samples.lifecycle
                       Demo.endedWorld))) = true.
Proof.
  assert (F : finished (tx Demo.endedWorld) = true) by (vm_compute; reflexivity).
  split; [exact F |].
  exact (proj1 (flags_never_reset (X := Demo.txnCollaborators)
                  Samples.lifecycle Demo.endedWorld) F).
Defined.

Lemma freezeName_settles_witness :
  ignore (freezeName (X := Demo.txnCollaborators)
            (tx (Demo.webWorld false true true))) = false /\
  isEmpty
    (finalName (freezeName (X := Demo.txnCollaborators)
                  (tx (Demo.webWorld false true true)))) = false.
Proof.
  assert (I : ignore (freezeName (X := Demo.txnCollaborators)
                        (tx (Demo.webWorld false true true))) = false)
    by (vm_compute; reflexivity).
  split; [exact I |].
  exact (proj2 (proj2 (freezeName_settles (X := Demo.txnCollaborators)
                         (tx (Demo.webWorld false true true)))) I).
Defined.

Lemma first_header_records_decimal_status_witness :
  finished (tx (Demo.webWorld false true true)) = false /\
  wroteHeader (tx (Demo.webWorld false true true)) = false /\
  ResponseCode
    (agent (attrs (headersJustWritten (X := Demo.txnCollaborators)
                     (Writer_Header Demo.sink) 299 1200
                     (tx (Demo.webWorld false true true))))) = "299".
Proof.
  split; [vm_compute; reflexivity |].
  split; [vm_compute; reflexivity |].
  exact (proj1 (first_header_records_decimal_status
                  (X := Demo.txnCollaborators) (Writer_Header Demo.sink) 299
                  1200 (tx (Demo.webWorld false true true))
                  ltac:(vm_compute; reflexivity)
                  ltac:(vm_compute; reflexivity))).
Defined.

Lemma Write_masks_later_error_statuses_witness :
  forallb isHeaderWrite Samples.lateStatus = true /\
  errorsSeen
    (tx (fst (run (X := Demo.txnCollaborators)
                (callWrite "body" 1200 :: Samples.lateStatus)
                (Demo.webWorld false true true)))) = 0 /\
  errors
    (tx (fst (run (X := Demo.txnCollaborators)
                (callWrite "body" 1200 :: Samples.lateStatus)
                (Demo.webWorld false true true)))) = None.
Proof.
  pose proof (Write_masks_later_error_statuses (X := Demo.txnCollaborators)
                (Demo.webWorld false true true) "body" 1200 Samples.lateStatus
                eq_refl) as H.
  cbv zeta in H; destruct H as (S & E & _).
  split; [reflexivity |].
  split; [rewrite S | rewrite E]; vm_compute; reflexivity.
Defined.

Lemma consumer_gets_the_final_record_once_witness :
  finished (tx (Demo.webWorld false true true)) = false /\
  length (Consumer (fst (run (X := Demo.txnCollaborators) Samples.lifecycle
                           (Demo.webWorld false true true)))) = 1%nat /\
  finalName (tx (fst (run (X := Demo.txnCollaborators) Samples.lifecycle
                        (Demo.webWorld false true true)))) =
    "WebTransaction/Go//checkout".
Proof.
  assert (F : finished (tx (Demo.webWorld false true true)) = false)
    by (vm_compute; reflexivity).
  pose proof (consumer_gets_the_final_record_once (X := Demo.txnCollaborators)
                Samples.lifecycle (Demo.webWorld false true true) F) as H.
  cbv zeta in H.
  split; [exact F |].
  split; [| vm_compute; reflexivity].
  destruct H as [[L _] | [_ [[I _] | (_ & _ & C)]]].
  - vm_compute in L; discriminate L.
  - vm_compute in I; discriminate I.
  - rewrite C; reflexivity.
Defined.

Lemma End_freezes_the_last_name_witness :
  finished (tx (Demo.webWorld false true true)) = false /\
  ignore (tx (Demo.webWorld false true true)) = false /\
  isEmpty (finalName (tx (Demo.webWorld false true true))) = true /\
  finalName
    (tx (fst (txn_End (X := Demo.txnCollaborators) None 0 2000
                (fst (txn_SetName "/checkout"
                        (Demo.webWorld false true true)))))) =
    "WebTransaction/Go//checkout".
Proof.
  pose proof (End_freezes_the_last_name (X := Demo.txnCollaborators)
                (Demo.webWorld false true true) "/checkout" None 0 2000
                ltac:(vm_compute; reflexivity) ltac:(vm_compute; reflexivity)
                ltac:(vm_compute; reflexivity)) as H.
  cbv zeta in H; destruct H as (_ & N & _).
  split; [vm_compute; reflexivity |].
  split; [vm_compute; reflexivity |].
  split; [vm_compute; reflexivity |].
  rewrite N; vm_compute; reflexivity.
Defined.

Lemma panicking_web_transaction_fails_witness :
  finished (tx (Demo.webWorld false true true)) = false /\
  isWeb (tx (Demo.webWorld false true true)) = true /\
  0 <= errorsSeen (tx (Demo.webWorld false true true)) < 2 ^ 64 - 1 /\
  snd (txn_End (X := Demo.txnCollaborators) (Some (anyString "boom")) 1900
         2000 (Demo.webWorld false true true)) = Panic (anyString "boom") /\
  zone (tx (fst (txn_End (X := Demo.txnCollaborators)
                   (Some (anyString "boom")) 1900 2000
                   (Demo.webWorld false true true)))) = apdexFailing.
Proof.
  assert (B : 0 <= errorsSeen (tx (Demo.webWorld false true true)) < 2 ^ 64 - 1)
    by (vm_compute; split; [discriminate | reflexivity]).
  pose proof (panicking_web_transaction_fails (X := Demo.txnCollaborators)
                (Demo.webWorld false true true) (anyString "boom") 1900 2000
                ltac:(vm_compute; reflexivity) ltac:(vm_compute; reflexivity)
                B) as H.
  cbv zeta in H; destruct H as (P & _ & _ & Z).
  split; [vm_compute; reflexivity |].
  split; [vm_compute; reflexivity |].
  split; [exact B |].
  split; [exact P | exact Z].
Defined.

Lemma errorsSeen_counts_noticed_errors_witness :
  forallb isNotice Samples.notices = true /\
  finished (tx (Demo.webWorld false false true)) = false /\
  0 <= errorsSeen (tx (Demo.webWorld false false true)) < 2 ^ 64 /\
  errorsSeen (tx (fst (run (X := Demo.txnCollaborators) Samples.notices
                         (Demo.webWorld false false true)))) = 2.
Proof.
  assert (B : 0 <= errorsSeen (tx (Demo.webWorld false false true)) < 2 ^ 64)
    by (vm_compute; split; [discriminate | reflexivity]).
  pose proof (errorsSeen_counts_noticed_errors (X := Demo.txnCollaborators)
                Samples.notices (Demo.webWorld false false true) eq_refl
                ltac:(vm_compute; reflexivity) B) as H.
  cbv zeta in H; destruct H as (S & _).
  split; [reflexivity |].
  split; [vm_compute; reflexivity |].
  split; [exact B |].
  rewrite S; vm_compute; reflexivity.
Defined.

Lemma high_security_error_events_are_redacted_witness :
  storeKeepsWhatItIsGiven (X := Demo.txnCollaborators) /\
  HighSecurity (Demo.config true true) = true /\
  In (hd Samples.noEvent
        (errorEventsOf
       (mergeIntoHarvest (H := Harvest.demo)
          (tx (fst (run (X := Demo.txnCollaborators) Demo.redactedCalls
                      (Demo.webWorld true true true)))) [])))
    (errorEventsOf
       (mergeIntoHarvest (H := Harvest.demo)
          (tx (fst (run (X := Demo.txnCollaborators) Demo.redactedCalls
                      (Demo.webWorld true true true)))) [])) /\
  errorEvent_msg
    (hd Samples.noEvent
       (errorEventsOf
       (mergeIntoHarvest (H := Harvest.demo)
          (tx (fst (run (X := Demo.txnCollaborators) Demo.redactedCalls
                      (Demo.webWorld true true true)))) []))) =
    HighSecurityErrorMsg.
Proof.
  assert (I : In (hd Samples.noEvent
                    (errorEventsOf
       (mergeIntoHarvest (H := Harvest.demo)
          (tx (fst (run (X := Demo.txnCollaborators) Demo.redactedCalls
                      (Demo.webWorld true true true)))) [])))
                (errorEventsOf
       (mergeIntoHarvest (H := Harvest.demo)
          (tx (fst (run (X := Demo.txnCollaborators) Demo.redactedCalls
                      (Demo.webWorld true true true)))) [])))
    by (vm_compute; left; reflexivity).
  split; [exact boundedAdd_keeps_what_it_is_given |].
  split; [reflexivity |].
  split; [exact I |].
  exact (high_security_error_events_are_redacted
           (X := Demo.txnCollaborators) (H := Harvest.demo)
           (mkInput (Some Demo.request) (Demo.config true true) (Demo.reply true))
           "/index" 1000 Demo.sink [] Demo.redactedCalls _
           boundedAdd_keeps_what_it_is_given ltac:(vm_compute; reflexivity) I).
Defined.

Lemma disabled_capture_reports_the_count_only_witness :
  ErrorCollector_Enabled (ErrorCollector (Demo.config false false))
  && CollectErrors (Demo.reply true) = false /\
  forallb isNotice Samples.notices = true /\
  errorsSeen (tx (fst (run (X := Demo.txnCollaborators) Samples.notices
                         (Demo.webWorld false false true)))) = 2 /\
  errorEventsOf
    (mergeIntoHarvest (H := Harvest.demo)
       (tx (fst (run (X := Demo.txnCollaborators) Samples.notices
                   (Demo.webWorld false false true)))) []) = [].
Proof.
  pose proof (disabled_capture_reports_the_count_only
                (X := Demo.txnCollaborators) (H := Harvest.demo)
                (mkInput (Some Demo.request) (Demo.config false false)
                   (Demo.reply true))
                "/index" 1000 Demo.sink [] Samples.notices
                ltac:(vm_compute; reflexivity) eq_refl) as H.
  cbv zeta in H; destruct H as (S & _ & E & _).
  split; [vm_compute; reflexivity |].
  split; [reflexivity |].
  split; [exact S | exact E].
Defined.

End TxnMoreFacts.

(** * Further properties of [v3/newrelic/log_event.go] *)

Module LogMoreFacts.
Import Go Log LogVocabulary LogFacts.

Lemma append_empty (a : string) : a ++ "" = a.
Proof. induction a as [| x a IH]; cbn; [reflexivity | rewrite IH; reflexivity]. Qed.

Lemma appendLinkingMetadata_suffix (md : linkingMetadata) (b : string) :
  exists s,
    appendLinkingMetadata md b = b ++ s /\
    (s = "" \/ exists body, s = " NR-LINKING|" ++ body ++ "|") /\
    (isEmpty (md_entityGUID md) || isEmpty (md_entityName md)
     || isEmpty (md_hostname md) = true -> s = "").
Proof.
  unfold appendLinkingMetadata.
  destruct (isEmpty (md_entityGUID md) || isEmpty (md_entityName md)
            || isEmpty (md_hostname md)).
  { exists ""; rewrite append_empty; auto. }
  destruct (negb (isEmpty (md_traceID md)) && negb (isEmpty (md_spanID md)));
    cbv zeta; rewrite !append_assoc.
  - eexists; split; [reflexivity |].
    split; [right | discriminate].
    exists (md_entityGUID md ++ "|" ++ md_hostname md ++ "|" ++ md_traceID md
            ++ "|" ++ md_spanID md ++ "|" ++ md_entityName md).
    rewrite !append_assoc; reflexivity.
  - eexists; split; [reflexivity |].
    split; [right | discriminate].
    exists (md_entityGUID md ++ "|" ++ md_hostname md ++ "|" ++ md_entityName md).
    rewrite !append_assoc; reflexivity.
Qed.

Lemma append_same (b s : string) : b ++ s = b -> s = "".
Proof.
  induction b as [| x b IH]; cbn; intros E; [exact E |].
  injection E as E; exact (IH E).
Qed.

Section Facts.
Context {X : Collaborators}.

(** X15. When [toLogEvent] fails, the event returned is the zero event, and
    the caller's record is as it was except for its severity: an empty
    severity has already been replaced by the sentinel, because the
    replacement precedes the length check. *)
Theorem toLogEvent_failure_touches_only_severity (data : option LogData)
  (now : Time) (prio : priority) :
  snd (snd (toLogEvent data now prio)) <> None ->
  fst (snd (toLogEvent data now prio)) = logEvent_zero /\
  fst (toLogEvent data now prio) =
    match data with
    | None => None
    | Some d =>
        Some (mkLogData (Timestamp d)
                (if isEmpty (Severity d) then LogSeverityUnknown
                 else Severity d)
                (Message d))
    end.
Proof.
  destruct data as [d |]; cbn [toLogEvent]; [| auto].
  assert (M : Message
                (if isEmpty (Severity d)
                 then mkLogData (Timestamp d) LogSeverityUnknown (Message d)
                 else d) = Message d)
    by (destruct (isEmpty (Severity d)); reflexivity).
  rewrite M.
  destruct (MaxLogLength <? len (Message d)); cbn [fst snd].
  - intros _; split; [reflexivity |].
    destruct (isEmpty (Severity d)); [reflexivity | destruct d; reflexivity].
  - intros N; exfalso; apply N; reflexivity.
Qed.

(** X16. The events [toLogEvent] returns carry no span id and no trace id,
    so with a field writer that honours its contract their encoding has
    exactly three fields: severity, message, timestamp. *)
Theorem fresh_event_encodes_three_fields
  (renderKey renderString : string -> string) (renderInt : Z -> string)
  (data : option LogData) (now : Time) (prio : priority) (b : string) :
  writesFields renderKey renderString renderInt ->
  let e := fst (snd (toLogEvent data now prio)) in
  WriteJSON e b =
  b ++ "{"
    ++ renderKey LogSeverityFieldName ++ ":" ++ renderString (severity e)
    ++ "," ++ renderKey LogMessageFieldName ++ ":" ++ renderString (message e)
    ++ "," ++ renderKey LogTimestampFieldName ++ ":"
    ++ renderInt (timestamp e) ++ "}".
Proof.
  intros [S I] e.
  assert (N : spanID e = "" /\ traceID e = "").
  { subst e; destruct data as [d |]; cbn [toLogEvent]; [| auto].
    destruct (MaxLogLength <? len _); cbn; auto. }
  destruct N as [N1 N2].
  unfold WriteJSON; cbv zeta; rewrite N1, N2; cbn [len String.length Z.of_nat Z.ltb Z.compare].
  unfold WriteByte, set_needsComma;
    rewrite ?S, ?I; cbn [buf needsComma];
    rewrite ?S, ?I; cbn [buf needsComma];
    rewrite ?S, ?I; cbn [buf needsComma];
    rewrite ?append_assoc; cbn [append]; reflexivity.
Qed.

End Facts.

(** X17. [EnrichLog] only ever appends: the buffer afterwards is the buffer
    before followed by either nothing or a block that starts with
    [" NR-LINKING|"] and ends with a pipe. When it returns an error it has
    appended nothing, and a nil buffer stays nil. *)
Theorem EnrichLog_only_appends (b : string) (opts : enricherOption) :
  fst (EnrichLog None opts) = None /\
  exists s,
    fst (EnrichLog (Some b) opts) = Some (b ++ s) /\
    (s = "" \/ exists body, s = " NR-LINKING|" ++ body ++ "|") /\
    (snd (EnrichLog (Some b) opts) <> None -> s = "").
Proof.
  split; [reflexivity |].
  unfold EnrichLog.
  set (resolved :=
         match cfg_app (opts (mkEnricherConfig None None)) with
         | Some a => Some (a, mkTraceMetadata "" "")
         | None =>
             match cfg_txn (opts (mkEnricherConfig None None)) with
             | Some t => Some (Transaction_Application t, GetTraceMetadata t)
             | None => None
             end
         end).
  assert (Z : exists s : string,
            Some b = Some (b ++ s) /\
            (s = "" \/ exists body, s = " NR-LINKING|" ++ body ++ "|") /\
            s = "").
  { exists ""; rewrite append_empty; auto. }
  destruct resolved as [[a txnMD] |]; cbn [fst snd].
  2: { destruct Z as (s & E & O & Q); exists s; auto. }
  destruct (Application_app a) as [ap |]; cbn [fst snd].
  2: { destruct Z as (s & E & O & Q); exists s; auto. }
  destruct (getState ap) as [reply | err]; cbn [fst snd].
  2: { destruct Z as (s & E & O & Q); exists s; auto. }
  destruct (ApplicationLogging_Enabled reply && LocalDecorating_Enabled reply);
    cbn [fst snd].
  2: { destruct Z as (s & E & O & Q); exists s; auto. }
  destruct (appendLinkingMetadata_suffix
              (mkLinkingMetadata (TraceID txnMD) (SpanID txnMD)
                 (Reply_EntityGUID reply) (config_hostname ap)
                 (config_AppName ap)) b) as (s & E & O & _).
  exists s; rewrite E; split; [reflexivity |]; split; [exact O |].
  intros N; exfalso; apply N; reflexivity.
Qed.

(** X18. When both an application and a transaction are given, in either
    order, [EnrichLog] uses the application and behaves as if the
    transaction had not been given: no trace id or span id is written. *)
Theorem EnrichLog_app_takes_precedence (b : option string) (a : Application)
  (t : Transaction) :
  EnrichLog b (fun cfg => FromApp a (FromTxn t cfg)) = EnrichLog b (FromApp a) /\
  EnrichLog b (fun cfg => FromTxn t (FromApp a cfg)) = EnrichLog b (FromApp a).
Proof. destruct b; split; reflexivity. Qed.

(** X19. [EnrichLog] returns nil exactly when it is given a buffer and its
    options resolve to an application that is connected and whose state can
    be read; disabled logging or decoration is not an error. *)
Theorem EnrichLog_succeeds_iff (b : option string) (opts : enricherOption) :
  snd (EnrichLog b opts) = None <->
  b <> None /\
  exists a ap st,
    sourceOf opts = Some a /\ Application_app a = Some ap /\
    getState ap = inl st.
Proof.
  unfold EnrichLog, sourceOf; cbv zeta.
  destruct b as [b |]; cbn [snd].
  2: { split; [discriminate | intros [N _]; exfalso; apply N; reflexivity]. }
  destruct (cfg_app (opts (mkEnricherConfig None None))) as [a |].
  - destruct (Application_app a) as [ap |] eqn:A; cbn [snd].
    + destruct (getState ap) as [st | err] eqn:G; cbn [snd].
      * split; [intros _ |].
        { split; [discriminate |]; exists a, ap, st; auto. }
        intros _; destruct (_ && _); reflexivity.
      * split; [discriminate |].
        intros (_ & a' & ap' & st' & E & A' & G').
        injection E as <-; rewrite A in A'; injection A' as <-.
        rewrite G in G'; discriminate G'.
    + split; [discriminate |].
      intros (_ & a' & ap' & st' & E & A' & _).
      injection E as <-; rewrite A in A'; discriminate A'.
  - destruct (cfg_txn (opts (mkEnricherConfig None None))) as [t |]; cbn [snd].
    2: { split; [discriminate |].
         intros (_ & a' & ap' & st' & E & _); discriminate E. }
    destruct (Application_app (Transaction_Application t)) as [ap |] eqn:A;
      cbn [snd].
    + destruct (getState ap) as [st | err] eqn:G; cbn [snd].
      * split; [intros _ |].
        { split; [discriminate |].
          exists (Transaction_Application t), ap, st; auto. }
        intros _; destruct (_ && _); reflexivity.
      * split; [discriminate |].
        intros (_ & a' & ap' & st' & E & A' & G').
        injection E as <-; rewrite A in A'; injection A' as <-.
        rewrite G in G'; discriminate G'.
    + split; [discriminate |].
      intros (_ & a' & ap' & st' & E & A' & _).
      injection E as <-; rewrite A in A'; discriminate A'.
Qed.

(** X20. [EnrichLog] changes the buffer only when its source is a connected
    application with logging and local decoration both enabled and with a
    non-empty entity GUID, host name and application name; in every other
    case the buffer is left as it was. *)
Theorem EnrichLog_changes_only_when_linkable (b out : string)
  (opts : enricherOption) :
  fst (EnrichLog (Some b) opts) = Some out ->
  out <> b ->
  exists a ap st,
    sourceOf opts = Some a /\ Application_app a = Some ap /\
    getState ap = inl st /\
    ApplicationLogging_Enabled st = true /\
    LocalDecorating_Enabled st = true /\
    isEmpty (Reply_EntityGUID st) = false /\
    isEmpty (config_hostname ap) = false /\
    isEmpty (config_AppName ap) = false.
Proof.
  unfold EnrichLog, sourceOf; cbv zeta.
  assert (K : forall (a : Application) (txnMD : TraceMetadata),
            fst
              match Application_app a with
              | Some ap =>
                  match getState ap with
                  | inl reply =>
                      if ApplicationLogging_Enabled reply
                         && LocalDecorating_Enabled reply
                      then
                        (Some
                           (appendLinkingMetadata
                              (mkLinkingMetadata (TraceID txnMD) (SpanID txnMD)
                                 (Reply_EntityGUID reply) (config_hostname ap)
                                 (config_AppName ap)) b), None)
                      else (Some b, None)
                  | inr err => (Some b, Some err)
                  end
              | None => (Some b, Some errNoApplication)
              end = Some out ->
            out <> b ->
            exists ap st,
              Application_app a = Some ap /\ getState ap = inl st /\
              ApplicationLogging_Enabled st = true /\
              LocalDecorating_Enabled st = true /\
              isEmpty (Reply_EntityGUID st) = false /\
              isEmpty (config_hostname ap) = false /\
              isEmpty (config_AppName ap) = false).
  { intros a txnMD E N.
    destruct (Application_app a) as [ap |] eqn:A; cbn [fst] in E;
      [| injection E as <-; contradiction].
    destruct (getState ap) as [st | err] eqn:G; cbn [fst] in E;
      [| injection E as <-; contradiction].
    destruct (ApplicationLogging_Enabled st) eqn:L; cbn [andb] in E;
      [| injection E as <-; contradiction].
    destruct (LocalDecorating_Enabled st) eqn:D; cbn [fst] in E;
      [| injection E as <-; contradiction].
    injection E as <-.
    exists ap, st.
    unfold appendLinkingMetadata in N;
      cbn [md_entityGUID md_entityName md_hostname] in N.
    destruct (isEmpty (Reply_EntityGUID st)) eqn:E1; cbn [orb] in N;
      [contradiction |].
    destruct (isEmpty (config_AppName ap)) eqn:E2; cbn [orb] in N;
      [contradiction |].
    destruct (isEmpty (config_hostname ap)) eqn:E3; [contradiction |].
    repeat split; assumption. }
  destruct (cfg_app (opts (mkEnricherConfig None None))) as [a |].
  - intros E N; destruct (K a _ E N) as (ap & st & Q).
    exists a, ap, st; split; [reflexivity | exact Q].
  - destruct (cfg_txn (opts (mkEnricherConfig None None))) as [t |].
    + intros E N; destruct (K _ _ E N) as (ap & st & Q).
      exists (Transaction_Application t), ap, st; split; [reflexivity | exact Q].
    + cbn [fst]; intros E N; injection E as <-; contradiction.
Qed.

(** X21. A trace context that is not complete is dropped: when the trace id
    or the span id is empty, [appendLinkingMetadata] writes what it writes
    with no trace context at all. *)
Theorem partial_trace_context_is_dropped (md : linkingMetadata) (b : string) :
  isEmpty (md_traceID md) || isEmpty (md_spanID md) = true ->
  appendLinkingMetadata md b = appendLinkingMetadata (withTrace "" "" md) b.
Proof.
  intros E; unfold appendLinkingMetadata, withTrace;
    cbn [md_traceID md_spanID md_entityGUID md_hostname md_entityName isEmpty
         negb andb].
  destruct (isEmpty (md_entityGUID md) || isEmpty (md_entityName md)
            || isEmpty (md_hostname md)); [reflexivity |].
  destruct (isEmpty (md_traceID md)); cbn [negb andb]; [reflexivity |].
  cbn [orb] in E; rewrite E; reflexivity.
Qed.

(** *** The further properties at concrete log records *)

Lemma toLogEvent_failure_touches_only_severity_witness :
  snd (snd (toLogEvent (X := Demo.logCollaborators) (Some Samples.oversized)
              5000000000 3)) <> None /\
  fst (toLogEvent (X := Demo.logCollaborators) (Some Samples.oversized)
         5000000000 3) =
    Some (mkLogData 0 "UNKNOWN" (Message Samples.oversized)).
Proof.
  assert (N : snd (snd (toLogEvent (X := Demo.logCollaborators)
                          (Some Samples.oversized) 5000000000 3)) <> None)
    by (vm_compute; discriminate).
  split; [exact N |].
  exact (proj2 (toLogEvent_failure_touches_only_severity
                  (X := Demo.logCollaborators) (Some Samples.oversized)
                  5000000000 3 N)).
Defined.

Lemma fresh_event_encodes_three_fields_witness :
  writesFields (X := Demo.logCollaborators) Demo.bracket Demo.bracket Itoa /\
  WriteJSON (X := Demo.logCollaborators)
    (fst (snd (toLogEvent (X := Demo.logCollaborators) (Some Demo.rawData)
                 5000000000 3))) "" =
  "{<level>:<UNKNOWN>,<message>:<hi>,<timestamp>:5000}".
Proof.
  split; [exact bracket_writer_honours_the_contract |].
  exact (fresh_event_encodes_three_fields (X := Demo.logCollaborators)
           Demo.bracket Demo.bracket Itoa (Some Demo.rawData) 5000000000 3 ""
           bracket_writer_honours_the_contract).
Defined.

Lemma EnrichLog_changes_only_when_linkable_witness :
  fst (EnrichLog (Some "line") (FromTxn Demo.linkedTransaction)) =
    Some "line NR-LINKING|G|H|T|S|N|" /\
  "line NR-LINKING|G|H|T|S|N|" <> "line" /\
  exists a ap st,
    sourceOf (FromTxn Demo.linkedTransaction) = Some a /\
    Application_app a = Some ap /\ getState ap = inl st /\
    ApplicationLogging_Enabled st = true /\
    LocalDecorating_Enabled st = true /\
    isEmpty (Reply_EntityGUID st) = false /\
    isEmpty (config_hostname ap) = false /\
    isEmpty (config_AppName ap) = false.
Proof.
  assert (N : "line NR-LINKING|G|H|T|S|N|" <> "line") by discriminate.
  split; [reflexivity |].
  split; [exact N |].
  exact (EnrichLog_changes_only_when_linkable "line"
           "line NR-LINKING|G|H|T|S|N|" (FromTxn Demo.linkedTransaction)
           eq_refl N).
Defined.

Lemma partial_trace_context_is_dropped_witness :
  isEmpty "T" || isEmpty "" = true /\
  appendLinkingMetadata (mkLinkingMetadata "T" "" "G" "H" "N") "line" =
    "line NR-LINKING|G|H|N|".
Proof.
  split; [reflexivity |].
  exact (partial_trace_context_is_dropped
           (mkLinkingMetadata "T" "" "G" "H" "N") "line" eq_refl).
Defined.

End LogMoreFacts.
